(** * gpmf.gps: GPS blocks of a GPMF stream, decoded and turned into a track

    A shallow embedding of [gpmf/gps.py]: [extract_gps_blocks],
    [parse_gps_block], [FIX_TYPE], [_make_speed_extensions] and
    [make_pgx_segment], followed by the properties of these functions.

    Conventions.
    - A Python exception is a value of [exn]; a computation that may raise
      has type [result A].
    - A numpy integer array holds [Z]; the only integer operations of the
      module are [% 65536] and [// 65536], which cannot overflow.
    - A numpy float64 is an [npfloat]: its value as a rational in lowest
      terms, or negative zero, or one of the three special values. The
      conversion of an integer and the division round to 53 significant
      bits, to nearest, ties to even, as float64 does; the quotients of
      64-bit integers stay within the exponent range of float64.
    - Python's [datetime], [timedelta], ["%g" %] and [int()] are library
      code; they are the operations of the class [PyRuntime]. *)

From Stdlib Require Import QArith.
From stdpp Require Import base option list numbers strings pretty gmap fin_maps.

Open Scope string_scope.
Open Scope list_scope.
Open Scope Z_scope.

(** ** Exceptions and results *)

(** A numpy float64: a finite value, [inf], [-inf] or [nan]. The value
    zero has two signs: [Fin 0] is [0.0] and [NegZero] is [-0.0]. *)
Inductive npfloat : Type :=
  | Fin (q : Q)
  | PInf
  | NInf
  | NaN
  | NegZero.

(** The key of a failed dictionary lookup: a tag of [block_dict], or a
    number looked up in [FIX_TYPE]. *)
Inductive dict_key : Type :=
  | KStr (s : string)
  | KNum (c : npfloat).

Inductive exn : Type :=
  | KeyError (k : dict_key)
  | IndexError
  | ValueError
  | TypeError
  | AttributeError
  | OverflowError
  | UnboundLocalError (name : string).

Inductive result (A : Type) : Type :=
  | Ok (a : A)
  | Raise (e : exn).
Arguments Ok {A} a.
Arguments Raise {A} e.

#[global] Instance result_ret : MRet result := λ A a, Ok a.
#[global] Instance result_bind : MBind result := λ A B f r,
  match r with
  | Ok a => f a
  | Raise e => Raise e
  end.

(** ** The records of the tokenizer *)

(** A two-dimensional numpy array of shape [(length rows, ncols)]. *)
Record ndarray2 (A : Type) : Type := Array2 {
  ncols : nat;
  rows : list (list A)
}.
Arguments Array2 {A} ncols rows.
Arguments ncols {A} _.
Arguments rows {A} _.

(** Every row has [ncols] entries, as in every numpy array. *)
Definition rectangular {A} (m : ndarray2 A) : Prop :=
  Forall (λ r, length r = ncols m) (rows m).

(** Modelled from the spec: [KLVItem], the record type of [gpmf/parse.py],
    which is not part of the sources read here. A record has a four
    character tag and a value that is a scalar, a numeric array, a string
    or a nested sequence of records. *)
Inductive KLVItem : Type :=
  | KLV (key : string) (value : Value)
with Value : Type :=
  | VInt (z : Z)
  | VArray1 (v : list Z)
  | VArray2 (m : ndarray2 Z)
  | VStr (s : string)
  | VItems (items : list KLVItem).

Definition key (s : KLVItem) : string := let 'KLV k _ := s in k.
Definition value (s : KLVItem) : Value := let 'KLV _ v := s in v.

(** Modelled from the spec: [parse.filter_klv(stream, tag)], which selects
    the top-level records of the stream that carry the tag, in stream
    order. *)
Definition filter_klv (stream : list KLVItem) (tag : string) : list KLVItem :=
  filter (λ s, key s = tag) stream.

(** ** [extract_gps_blocks] *)

(** [for elt in s.value], with the [elt.key] of the loop body: the
    children of a container. A scalar cannot be iterated. An array or a
    string can: without elements the loop body never runs, and otherwise
    its first element (a number, a row, a character) has no attribute
    [key]. *)
Definition iter_value (v : Value) : result (list KLVItem) :=
  match v with
  | VItems items => Ok items
  | VInt _ => Raise TypeError
  | VArray1 [] | VStr "" => Ok []
  | VArray1 (_ :: _) | VStr (String _ _) => Raise AttributeError
  | VArray2 m =>
      match rows m with
      | [] => Ok []
      | _ :: _ => Raise AttributeError
      end
  end.

(** The inner loop: [content] collects every child, [is_gps] records
    whether a child tagged GPS9 was seen. *)
Fixpoint scan_children (elts : list KLVItem) (content : list KLVItem)
    (is_gps : bool) : list KLVItem * bool :=
  match elts with
  | [] => (content, is_gps)
  | elt :: elts' =>
      let content := content ++ [elt] in
      let is_gps := if decide (key elt = "GPS9") then true else is_gps in
      scan_children elts' content is_gps
  end.

(** The generator, run to its end: the blocks it yields, and the
    exception that stopped it, if any. *)
Fixpoint extract_from (strms : list KLVItem)
    : list (list KLVItem) * option exn :=
  match strms with
  | [] => ([], None)
  | s :: strms' =>
      match iter_value (value s) with
      | Raise e => ([], Some e)
      | Ok elts =>
          let '(content, is_gps) := scan_children elts [] false in
          let '(blocks, stop) := extract_from strms' in
          (if is_gps then content :: blocks else blocks, stop)
      end
  end.

Definition extract_gps_blocks (stream : list KLVItem)
    : list (list KLVItem) * option exn :=
  extract_from (filter_klv stream "STRM").

(** ** [parse_gps_block] *)

Record GPSData : Type := mkGPSData {
  description : Value;
  timestamp : list npfloat * list npfloat;
  micros_after_start : KLVItem;
  precision : list npfloat;
  fix_ : list npfloat;   (* the field [fix]; the word is reserved here *)
  latitude : list npfloat;
  longitude : list npfloat;
  altitude : list npfloat;
  speed_2d : list npfloat;
  speed_3d : list npfloat;
  units : Value;
  npoints : nat
}.

(** [{s.key: s for s in gps_block}]: a later record replaces an earlier
    one with the same tag. *)
Definition make_block_dict (gps_block : list KLVItem) : gmap string KLVItem :=
  foldl (λ d s, <[key s := s]> d) ∅ gps_block.

(** [block_dict[tag]] *)
Definition getitem (block_dict : gmap string KLVItem) (tag : string)
    : result KLVItem :=
  match block_dict !! tag with
  | Some s => Ok s
  | None => Raise (KeyError (KStr tag))
  end.

(** The payload is used as a two-dimensional array. A scalar cannot be
    indexed by [.T[-1]], nor can an empty vector; for any other vector
    [.T[-1]] is a scalar and the concatenation along axis 1 fails. A
    string or a sequence of records has no attribute [T]. *)
Definition as_array2 (v : Value) : result (ndarray2 Z) :=
  match v with
  | VArray2 m => Ok m
  | VInt _ | VArray1 [] => Raise IndexError
  | VArray1 (_ :: _) => Raise ValueError
  | VStr _ | VItems _ => Raise AttributeError
  end.

(** [m.T[j]] *)
Definition column {A} (d : A) (j : nat) (m : ndarray2 A) : list A :=
  map (λ r, nth j r d) (rows m).

(** [m.T[-1]] *)
Definition last_column (m : ndarray2 Z) : result (list Z) :=
  match ncols m with
  | O => Raise IndexError
  | S j => Ok (column 0 j m)
  end.

(** [np.concatenate((m, v[..., None]), 1)] *)
Definition concatenate_column (m : ndarray2 Z) (v : list Z) : ndarray2 Z :=
  Array2 (S (ncols m)) (zip_with (λ r x, r ++ [x]) (rows m) v).

(** [m.T[j] = v] *)
Definition set_column (j : nat) (v : list Z) (m : ndarray2 Z)
    : result (ndarray2 Z) :=
  if decide (j < ncols m)%nat
  then Ok (Array2 (ncols m) (zip_with (λ r x, <[j := x]> r) (rows m) v))
  else Raise IndexError.

(** [v.any()]: some entry is not zero. *)
Definition np_any (v : list Z) : bool :=
  existsb (λ x, negb (x =? 0)) v.

(** [tempy.any() < 0]: the boolean, compared with zero as a number. *)
Definition overflow_guard (tempy : list Z) : bool :=
  Z.b2z (np_any tempy) <? 0.

(** Lines 73 to 80: the working matrix [gpsClone]. *)
Definition working_matrix (gps9 : ndarray2 Z) : result (ndarray2 Z) :=
  tempy ← last_column gps9;
  let gpsClone := concatenate_column gps9 (map (λ x, x `mod` 65536) tempy) in
  let tempy := if overflow_guard tempy
               then map (λ x, x + 4294967296) tempy
               else tempy in
  set_column 7 (map (λ x, x `div` 65536) tempy) gpsClone.

(** [n / d] rounded to an integer, to nearest, ties to even, for [n] not
    negative and [d] positive. *)
Definition round_half_even (n d : Z) : Z :=
  let qt := n `div` d in
  let r := n `mod` d in
  if 2 * r <? d then qt
  else if d <? 2 * r then qt + 1
  else if Z.even qt then qt else qt + 1.

(** The integer [k] with [2^k <= a / d < 2^(k+1)], for [a] and [d]
    positive. *)
Definition binary_exponent (a d : Z) : Z :=
  let k := Z.log2 a - Z.log2 d in
  if d * 2 ^ Z.max k 0 <=? a * 2 ^ Z.max (- k) 0 then k else k - 1.

(** The significand of [q], not zero: 53 bits, the last one rounded. *)
Definition significand (q : Q) : Z :=
  let e := binary_exponent (Z.abs (Qnum q)) (Z.pos (Qden q)) - 52 in
  round_half_even (Z.abs (Qnum q) * 2 ^ Z.max (- e) 0)
                  (Z.pos (Qden q) * 2 ^ Z.max e 0).

(** The rounding of float64 arithmetic: [q] rounded to 53 significant
    bits, to nearest, ties to even. The exponent is not bounded: float64
    has the exponents -1074 to 971, which the integers of a numpy array
    (at most 64 bits) and their quotients do not leave. *)
Definition round53 (q : Q) : Q :=
  if Qnum q =? 0 then 0%Q
  else
    let e := binary_exponent (Z.abs (Qnum q)) (Z.pos (Qden q)) - 52 in
    Qred (Qmake (Z.sgn (Qnum q) * significand q * 2 ^ Z.max e 0)
                (Z.to_pos (2 ^ Z.max (- e) 0))).

(** The float64 value of an integer: [x * 1.0], and the conversion of a
    divisor. *)
Definition to_float64 (x : Z) : Q := round53 (inject_Z x).

(** [x * 1.0 / s] for one entry. A zero divisor gives [inf], [-inf] or
    [nan], as numpy does (with a warning, not an exception); zero divided
    by a negative number is [-0.0]; every other quotient is the quotient
    of the two float64 values, rounded. *)
Definition true_divide (x s : Z) : npfloat :=
  if decide (s = 0)
  then (if decide (0 < x) then PInf else if decide (x < 0) then NInf else NaN)
  else if decide (x = 0)
  then (if decide (s < 0) then NegZero else Fin 0)
  else Fin (round53 (to_float64 x / to_float64 s)).

(** numpy's broadcasting of one axis. *)
Definition broadcast_dim (a b : nat) : option nat :=
  if decide (a = b) then Some a
  else if decide (a = 1%nat) then Some b
  else if decide (b = 1%nat) then Some a
  else None.

(** The index into an axis of length [a] for position [i] of the result. *)
Definition broadcast_index (a i : nat) : nat :=
  if decide (a = 1%nat) then O else i.

(** The divisor as a two-dimensional array: a scalar has shape (1,1), a
    vector of length n has shape (1,n). A string cannot divide a number;
    a sequence of records is turned into an array that cannot be
    broadcast against the columns. *)
Definition as_divisor (v : Value) : result (ndarray2 Z) :=
  match v with
  | VInt z => Ok (Array2 1 [[z]])
  | VArray1 l => Ok (Array2 (length l) [l])
  | VArray2 m => Ok m
  | VStr _ => Raise TypeError
  | VItems _ => Raise ValueError
  end.

Definition entry (m : ndarray2 Z) (i j : nat) : Z :=
  nth j (nth i (rows m) []) 0.

(** [m * 1.0 / scal] *)
Definition divide (m : ndarray2 Z) (scal : Value) : result (ndarray2 npfloat) :=
  s ← as_divisor scal;
  match broadcast_dim (length (rows m)) (length (rows s)),
        broadcast_dim (ncols m) (ncols s) with
  | Some nr, Some nc =>
      Ok (Array2 nc
            (map (λ i,
               map (λ j,
                  true_divide
                    (entry m (broadcast_index (length (rows m)) i)
                             (broadcast_index (ncols m) j))
                    (entry s (broadcast_index (length (rows s)) i)
                             (broadcast_index (ncols s) j)))
                 (seq 0 nc))
               (seq 0 nr)))
  | _, _ => Raise ValueError
  end.

Definition parse_gps_block (gps_block : list KLVItem) : result GPSData :=
  let block_dict := make_block_dict gps_block in
  gps9 ← getitem block_dict "GPS9";
  payload ← as_array2 (value gps9);
  gpsClone ← working_matrix payload;
  scal ← getitem block_dict "SCAL";
  gps_data ← divide gpsClone (value scal);
  (* latitude, longitude, ..., DOP, fix = gps_data.T *)
  if decide (ncols gps_data = 9%nat) then
    let col j := column NaN j gps_data in
    stnm ← getitem block_dict "STNM";
    stmp ← getitem block_dict "STMP";
    unit ← getitem block_dict "UNIT";
    Ok {| description := value stnm;
          timestamp := (col 5%nat, col 6%nat);
          micros_after_start := stmp;
          precision := col 7%nat;
          fix_ := col 8%nat;
          latitude := col 0%nat;
          longitude := col 1%nat;
          altitude := col 2%nat;
          speed_2d := col 3%nat;
          speed_3d := col 4%nat;
          units := value unit;
          npoints := length (rows gps_data) |}
  else Raise ValueError.

(** ** [FIX_TYPE] *)

(** [FIX_TYPE[c]]: the dictionary has the keys 0, 2 and 3; a float64 key
    finds the integer key it is numerically equal to, and [-0.0] equals
    0. *)
Definition FIX_TYPE (c : npfloat) : result string :=
  match c with
  | Fin q =>
      if Qeq_bool q 0 then Ok "none"
      else if Qeq_bool q 2 then Ok "2d"
      else if Qeq_bool q 3 then Ok "3d"
      else Raise (KeyError (KNum c))
  | NegZero => Ok "none"
  | PInf | NInf | NaN => Raise (KeyError (KNum c))
  end.

(** ** The library operations used by the assembler *)

Class PyRuntime : Type := {
  datetime : Type;
  timedelta : Type;
  (** [datetime(2000, 1, 1, 0, 0, 0, 0)] *)
  epoch : datetime;
  (** [timedelta(days=d, seconds=s)] *)
  timedelta_days_seconds : npfloat → npfloat → result timedelta;
  (** [timedelta(microseconds=n)] *)
  timedelta_microseconds : Z → result timedelta;
  (** [t + d] *)
  datetime_add : datetime → timedelta → result datetime;
  (** ["%g" % x] *)
  format_g : npfloat → string;
  (** [int(v)] *)
  int_of_value : Value → result Z
}.

(** An [xml.etree] element: tag, text and children. *)
#[warnings="-register-all"]
Inductive Element : Type :=
  | mkElement (tag : string) (text : option string) (children : list Element).

(** [a[i]] for a sequence and an index that is not negative. *)
Definition index {A} (a : list A) (i : nat) : result A :=
  match a !! i with
  | Some x => Ok x
  | None => Raise IndexError
  end.

Section Assembler.
Context `{RT : PyRuntime}.

(** A [gpxpy.gpx.GPXTrackPoint], with the attributes the module sets. *)
Record GPXTrackPoint : Type := mkGPXTrackPoint {
  tp_latitude : npfloat;
  tp_longitude : npfloat;
  tp_elevation : npfloat;
  tp_speed : npfloat;
  tp_position_dilution : npfloat;
  tp_time : datetime;
  tp_symbol : string;
  tp_type_of_gpx_fix : string;
  tp_extensions : list Element
}.

Definition GPXTrackSegment : Type := list GPXTrackPoint.

Definition _make_speed_extensions (gps_data : GPSData) (i : nat)
    : result (list Element) :=
  v2 ← index (speed_2d gps_data) i;
  let speed_2d :=
    mkElement "speed_2d" None
      [ mkElement "value" (Some (format_g v2)) [];
        mkElement "unit" (Some "m/s") [] ] in
  v3 ← index (speed_3d gps_data) i;
  let speed_3d :=
    mkElement "speed_3d" None
      [ mkElement "value" (Some (format_g v3)) [];
        mkElement "unit" (Some "m/s") [] ] in
  Ok [speed_2d; speed_3d].

(** [datetime(2000, 1, 1, 0, 0, 0, 0) +
     timedelta(days=timestamp[0][i], seconds=timestamp[1][i])] *)
Definition time_of_sample (gps_data : GPSData) (i : nat) : result datetime :=
  days ← index (fst (timestamp gps_data)) i;
  seconds ← index (snd (timestamp gps_data)) i;
  delta ← timedelta_days_seconds days seconds;
  datetime_add epoch delta.

(** Line 148, the right-hand side of the assignment to [starttime]. *)
Definition start_time_of (gps_data : GPSData) : result datetime :=
  t ← time_of_sample gps_data 0;
  micros ← int_of_value (value (micros_after_start gps_data));
  delta ← timedelta_microseconds (micros * -1);
  datetime_add t delta.

(** [x < 10] for a float64. *)
Definition lt_10 (x : npfloat) : bool :=
  match x with
  | Fin q => negb (Qle_bool 10 q)
  | NInf | NegZero => true
  | PInf | NaN => false
  end.

(** [gps_data.precision[0] < 10] *)
Definition precision_gate (gps_data : GPSData) : result bool :=
  p ← index (precision gps_data) 0;
  Ok (lt_10 p).

(** [stop = 1 if first_only else gps_data.npoints] *)
Definition stop_of (first_only : bool) (gps_data : GPSData) : nat :=
  if first_only then 1%nat else npoints gps_data.

(** The body of the loop over [i]: the point appended to the segment. *)
Definition make_point (gps_data : GPSData) (speeds_as_extensions : bool)
    (i : nat) : result GPXTrackPoint :=
  time ← time_of_sample gps_data i;
  lat ← index (latitude gps_data) i;
  lon ← index (longitude gps_data) i;
  ele ← index (altitude gps_data) i;
  spd ← index (speed_3d gps_data) i;
  dop ← index (precision gps_data) i;
  f ← index (fix_ gps_data) i;
  label ← FIX_TYPE f;
  exts ← (if speeds_as_extensions
          then _make_speed_extensions gps_data 0
          else Ok []);
  Ok {| tp_latitude := lat;
        tp_longitude := lon;
        tp_elevation := ele;
        tp_speed := spd;
        tp_position_dilution := dop;
        tp_time := time;
        tp_symbol := "Square";
        tp_type_of_gpx_fix := label;
        tp_extensions := exts |}.

(** [for i in range(stop)], over the list of the indices. *)
Fixpoint points_loop (gps_data : GPSData) (speeds_as_extensions : bool)
    (indices : list nat) (track_segment : GPXTrackSegment)
    : result GPXTrackSegment :=
  match indices with
  | [] => Ok track_segment
  | i :: indices' =>
      tp ← make_point gps_data speeds_as_extensions i;
      points_loop gps_data speeds_as_extensions indices'
        (track_segment ++ [tp])
  end.

(** [for gps_data in gps_blocks]; the state is the segment and the
    variable [starttime], which is unbound until its first assignment. *)
Fixpoint blocks_loop (gps_blocks : list GPSData)
    (first_only speeds_as_extensions : bool)
    (track_segment : GPXTrackSegment) (starttime : option datetime)
    : result (GPXTrackSegment * option datetime) :=
  match gps_blocks with
  | [] => Ok (track_segment, starttime)
  | gps_data :: gps_blocks' =>
      let stop := stop_of first_only gps_data in
      gate ← precision_gate gps_data;
      starttime ← (if gate : bool
                   then t ← start_time_of gps_data; Ok (Some t)
                   else Ok starttime);
      track_segment ← points_loop gps_data speeds_as_extensions
                        (seq 0 stop) track_segment;
      blocks_loop gps_blocks' first_only speeds_as_extensions
        track_segment starttime
  end.

Definition make_pgx_segment (gps_blocks : list GPSData)
    (first_only speeds_as_extensions : bool)
    : result (GPXTrackSegment * datetime) :=
  '(track_segment, starttime) ←
     blocks_loop gps_blocks first_only speeds_as_extensions [] None;
  match starttime with
  | Some t => Ok (track_segment, t)
  | None => Raise (UnboundLocalError "starttime")
  end.

End Assembler.

(** ** A runtime to run the model on examples

    Times are exact numbers of microseconds after the epoch, a duration
    with a [nan] or an infinite component is refused, and ["%g"] is only
    rendered for whole numbers. The theorems below hold for every runtime;
    this one serves the examples. *)

Definition micros_of_days_seconds (d s : npfloat) : result Q :=
  let finite x :=
    match x with
    | Fin q => Ok q
    | NegZero => Ok 0%Q
    | NaN => Raise ValueError
    | PInf | NInf => Raise OverflowError
    end in
  d ← finite d; s ← finite s;
  Ok (Qred (d * 86400000000 + s * 1000000)).

Definition render_g (x : npfloat) : string :=
  match x with
  | Fin q => if decide (Qden q = 1%positive) then pretty (Qnum q) else "?"
  | PInf => "inf"
  | NInf => "-inf"
  | NaN => "nan"
  | NegZero => "-0"
  end.

Definition exact_runtime : PyRuntime := {|
  datetime := Q;
  timedelta := Q;
  epoch := 0%Q;
  timedelta_days_seconds := micros_of_days_seconds;
  timedelta_microseconds := λ n, Ok (inject_Z n);
  datetime_add := λ t d, Ok (Qred (t + d));
  format_g := render_g;
  int_of_value := λ v, match v with VInt z => Ok z | _ => Raise TypeError end
|}.

(** * Reading the functions

    Functions that describe what the code above computes, and the inputs
    of the examples. *)

(** The row of [gpsClone] built from the payload row [r] of width [S j]:
    the low 16 bits of the last entry are appended, and entry 7 becomes the
    last entry divided by 65536, rounded down. *)
Definition split_row (j : nat) (r : list Z) : list Z :=
  <[7%nat := nth j r 0 `div` 65536]> (r ++ [nth j r 0 `mod` 65536]).

(** Column [j] of the decoded matrix, for the payload rows [l] and the
    divisors [v]. *)
Definition decoded_column (l : list (list Z)) (v : list Z) (j : nat)
    : list npfloat :=
  map (λ r, true_divide (nth j (split_row 7 r) 0) (nth j v 0)) l.

(** Line 82, read backwards: the sequence of the table that was unpacked
    from column [j] of [gps_data]. *)
Definition table_column (t : GPSData) (j : nat) : list npfloat :=
  match j with
  | 0 => latitude t
  | 1 => longitude t
  | 2 => altitude t
  | 3 => speed_2d t
  | 4 => speed_3d t
  | 5 => fst (timestamp t)
  | 6 => snd (timestamp t)
  | 7 => precision t
  | _ => fix_ t
  end%nat.

(** The tags the decoder looks up, in the order of their first lookup. *)
Definition required_tags : list string :=
  ["GPS9"; "SCAL"; "STNM"; "STMP"; "UNIT"].

(** The first required tag that the block does not have. *)
Definition first_absent (gps_block : list KLVItem) : option string :=
  find (λ tag, bool_decide (make_block_dict gps_block !! tag = None))
       required_tags.

(** The GPS9 and SCAL records, where present, have the shape the decoder
    works on: a rectangular payload of eight columns, nine divisors. *)
Definition expected_shapes (gps_block : list KLVItem) : Prop :=
  (∀ g, make_block_dict gps_block !! "GPS9" = Some g →
        ∃ m, value g = VArray2 m ∧ rectangular m ∧ ncols m = 8%nat) ∧
  (∀ s, make_block_dict gps_block !! "SCAL" = Some s →
        ∃ v, value s = VArray1 v ∧ length v = 9%nat).

(** A block with the five records. *)
Definition block_of (payload : ndarray2 Z) (divisors : list Z) : list KLVItem :=
  [ KLV "STMP" (VInt 1500);
    KLV "STNM" (VStr "GPS (Lat., Long., Alt., 2D, 3D, days, secs, DOP, fix)");
    KLV "UNIT" (VStr "degmmm/sm/s");
    KLV "SCAL" (VArray1 divisors);
    KLV "GPS9" (VArray2 payload) ].

(** Two samples of eight columns; the last column packs the dilution of
    precision (high half) and the fix code (low half): 3 and 3, then 5
    and 2. *)
Definition payload_8 : ndarray2 Z :=
  Array2 8 [ [10; 20; 5; 1; 2; 9000; 100; 196611];
             [11; 21; 6; 3; 4; 9000; 200; 327682] ].

(** One sample whose packed entry has its top bit set: the halves are
    0x8000 and 3, and the 32-bit signed reading is negative. *)
Definition payload_top_bit : ndarray2 Z :=
  Array2 8 [ [10; 20; 5; 1; 2; 9000; 100; -2147483645] ].

(** Two samples of nine columns. *)
Definition payload_9 : ndarray2 Z :=
  Array2 9 [ [10; 20; 5; 1; 2; 0; 100; 3; 3];
             [10; 20; 5; 1; 2; 0; 200; 3; 3] ].

(** A payload of three columns. *)
Definition payload_3 : ndarray2 Z :=
  Array2 3 [ [10; 20; 5] ].

Definition ones (n : nat) : list Z := replicate n 1.

(** The nine-column block without its STNM record. *)
Definition block_9_without_stnm : list KLVItem :=
  [ KLV "STMP" (VInt 0);
    KLV "UNIT" (VStr "degmmm/sm/s");
    KLV "SCAL" (VArray1 (ones 10));
    KLV "GPS9" (VArray2 payload_9) ].

(** A block with a short payload and no SCAL record. *)
Definition block_3_without_scal : list KLVItem :=
  [ KLV "STMP" (VInt 0);
    KLV "STNM" (VStr "GPS");
    KLV "UNIT" (VStr "degmmm/sm/s");
    KLV "GPS9" (VArray2 payload_3) ].

(** The children of a container. *)
Definition children (s : KLVItem) : list KLVItem :=
  match value s with
  | VItems items => items
  | _ => []
  end.

(** A stream container with a child tagged GPS9. *)
Definition is_gps_container (s : KLVItem) : Prop :=
  key s = "STRM" ∧ Exists (λ elt, key elt = "GPS9") (children s).

#[global] Instance is_gps_container_dec (s : KLVItem) :
  Decision (is_gps_container s).
Proof. unfold is_gps_container. apply _. Defined.

(** The keys of [FIX_TYPE], as float64 values. *)
Definition known_fix (c : npfloat) : Prop :=
  c = NegZero ∨ ∃ q, c = Fin q ∧ (q == 0 ∨ q == 2 ∨ q == 3)%Q.

(** The two extension elements made from the two speeds. *)
Definition speed_elements (value_2d value_3d : string) : list Element :=
  [ mkElement "speed_2d" None
      [ mkElement "value" (Some value_2d) [];
        mkElement "unit" (Some "m/s") [] ];
    mkElement "speed_3d" None
      [ mkElement "value" (Some value_3d) [];
        mkElement "unit" (Some "m/s") [] ] ].

Section ReadingTheAssembler.
Context `{RT : PyRuntime}.

(** [t] is the epoch plus the days and the seconds of sample [i]. *)
Definition is_time_of_sample (g : GPSData) (i : nat) (t : datetime) : Prop :=
  ∃ days seconds delta,
    fst (timestamp g) !! i = Some days ∧
    snd (timestamp g) !! i = Some seconds ∧
    timedelta_days_seconds days seconds = Ok delta ∧
    datetime_add epoch delta = Ok t.

(** [t] is the time of sample 0 minus the microseconds of the STMP
    record. *)
Definition is_start_time_of (g : GPSData) (t : datetime) : Prop :=
  ∃ t0 micros delta,
    is_time_of_sample g 0 t0 ∧
    int_of_value (value (micros_after_start g)) = Ok micros ∧
    timedelta_microseconds (micros * -1) = Ok delta ∧
    datetime_add t0 delta = Ok t.

(** The first dilution of precision of the table is below 10. *)
Definition passes_gate (g : GPSData) : Prop :=
  ∃ p, precision g !! 0%nat = Some p ∧ lt_10 p = true.

(** The first dilution of precision of the table is not below 10. *)
Definition misses_gate (g : GPSData) : Prop :=
  ∃ p, precision g !! 0%nat = Some p ∧ lt_10 p = false.

(** [p] carries the fields of sample [i] of the table [g]. *)
Definition is_point_of_sample (g : GPSData) (i : nat) (p : GPXTrackPoint)
    : Prop :=
  latitude g !! i = Some (tp_latitude p) ∧
  longitude g !! i = Some (tp_longitude p) ∧
  altitude g !! i = Some (tp_elevation p) ∧
  speed_3d g !! i = Some (tp_speed p) ∧
  precision g !! i = Some (tp_position_dilution p) ∧
  is_time_of_sample g i (tp_time p) ∧
  (∃ c, fix_ g !! i = Some c ∧ FIX_TYPE c = Ok (tp_type_of_gpx_fix p)).


End ReadingTheAssembler.

(** A stream with a GPS container, a container of another sensor, a
    record that is not a container, and a second GPS container. *)
Definition stream_4 : list KLVItem :=
  [ KLV "STRM" (VItems (block_of payload_8 (ones 9)));
    KLV "STRM" (VItems [ KLV "STNM" (VStr "Accelerometer");
                         KLV "ACCL" (VArray2 (Array2 3 [ [1; 2; 3] ])) ]);
    KLV "DVID" (VInt 1);
    KLV "STRM" (VItems [ KLV "GPS9" (VArray2 payload_top_bit);
                         KLV "STMP" (VInt 7) ]) ].

(** A table built by hand: [precision] gives the first dilution of
    precision, [fixes] the fix codes; there are as many samples as fix
    codes. *)
Definition table_of (dop : Z) (fixes : list Z) (micros : Z) : GPSData :=
  {| description := VStr "GPS";
     timestamp := (map (λ _, Fin 9000) fixes,
                   imap (λ i _, Fin (inject_Z (Z.of_nat i))) fixes);
     micros_after_start := KLV "STMP" (VInt micros);
     precision := map (λ _, Fin (inject_Z dop)) fixes;
     fix_ := map (λ f, Fin (inject_Z f)) fixes;
     latitude := imap (λ i _, Fin (inject_Z (10 + Z.of_nat i))) fixes;
     longitude := imap (λ i _, Fin (inject_Z (20 + Z.of_nat i))) fixes;
     altitude := map (λ _, Fin 5) fixes;
     speed_2d := imap (λ i _, Fin (inject_Z (1 + Z.of_nat i))) fixes;
     speed_3d := imap (λ i _, Fin (inject_Z (2 + Z.of_nat i))) fixes;
     units := VStr "degmmm/sm/s";
     npoints := length fixes |}.


(** Three tables: the first two pass the gate, the third does not. *)
Definition tables_3 : list GPSData :=
  [ table_of 3 [3; 2; 0] 1500; table_of 2 [2] 500; table_of 12 [0; 3] 0 ].

(** One table that does not pass the gate. *)
Definition tables_ungated : list GPSData :=
  [ table_of 12 [3] 0 ].


(** A block with two SCAL records and a record of another sensor. *)
Definition block_two_scal : list KLVItem :=
  [ KLV "SCAL" (VArray1 [2; 2; 2; 2; 2; 2; 2; 2; 2]);
    KLV "STMP" (VInt 1500);
    KLV "STNM" (VStr "GPS");
    KLV "TSMP" (VInt 36);
    KLV "UNIT" (VStr "degmmm/sm/s");
    KLV "SCAL" (VArray1 (ones 9));
    KLV "GPS9" (VArray2 payload_8) ].

(** A block whose SCAL record holds the given value. *)
Definition block_with_scal (payload : ndarray2 Z) (scal : Value)
    : list KLVItem :=
  [ KLV "STMP" (VInt 1500);
    KLV "STNM" (VStr "GPS");
    KLV "UNIT" (VStr "degmmm/sm/s");
    KLV "SCAL" scal;
    KLV "GPS9" (VArray2 payload) ].

Section WithoutExtensions.
Context `{RT : PyRuntime}.

(** The point [p] with an empty list of extensions. *)
Definition without_extensions (p : GPXTrackPoint) : GPXTrackPoint :=
  {| tp_latitude := tp_latitude p;
     tp_longitude := tp_longitude p;
     tp_elevation := tp_elevation p;
     tp_speed := tp_speed p;
     tp_position_dilution := tp_position_dilution p;
     tp_time := tp_time p;
     tp_symbol := tp_symbol p;
     tp_type_of_gpx_fix := tp_type_of_gpx_fix p;
     tp_extensions := [] |}.

End WithoutExtensions.

(** A table without samples. *)
Definition table_empty : GPSData := table_of 3 [] 0.

(** A payload of eight columns without rows. *)
Definition payload_no_rows : ndarray2 Z := Array2 8 [].

(** The divisors of a camera: degrees, metres, metres per second, days,
    seconds, dilution of precision in hundredths, fix code. *)
Definition camera_divisors : list Z :=
  [10000000; 10000000; 1000; 1000; 100; 1; 1000; 100; 1].

(** The block of two samples without its STNM record. *)
Definition block_8_without_stnm : list KLVItem :=
  [ KLV "STMP" (VInt 1500);
    KLV "UNIT" (VStr "degmmm/sm/s");
    KLV "SCAL" (VArray1 camera_divisors);
    KLV "GPS9" (VArray2 payload_8) ].

(** A block of another sensor: no GPS9 record. *)
Definition block_without_gps9 : list KLVItem :=
  [ KLV "STMP" (VInt 1500);
    KLV "STNM" (VStr "Accelerometer");
    KLV "UNIT" (VStr "m/s2");
    KLV "SCAL" (VInt 418);
    KLV "ACCL" (VArray2 (Array2 3 [ [1; 2; 3] ])) ].

(** A block with the five records and a payload of nine columns, one
    column per field: two samples, nine divisors equal to one, STMP 0. *)
Definition block_nine_fields : list KLVItem :=
  [ KLV "STMP" (VInt 0);
    KLV "STNM" (VStr "GPS (Lat., Long., Alt., 2D, 3D, days, secs, DOP, fix)");
    KLV "UNIT" (VStr "degmmm/sm/s");
    KLV "SCAL" (VArray1 (ones 9));
    KLV "GPS9" (VArray2 payload_9) ].

(** A stream whose first record tagged STRM holds an empty array. *)
Definition stream_empty_array : list KLVItem :=
  [ KLV "STRM" (VArray1 []);
    KLV "STRM" (VItems (block_of payload_8 (ones 9))) ].

(** A stream whose second record tagged STRM holds an array of numbers. *)
Definition stream_array : list KLVItem :=
  [ KLV "STRM" (VItems (block_of payload_8 (ones 9)));
    KLV "STRM" (VArray1 [1; 2; 3]);
    KLV "STRM" (VItems (block_of payload_top_bit (ones 9))) ].

(** * Properties *)

(** ** Reasoning about [result] *)

Lemma bind_Ok {A B} (f : A → result B) (r : result A) (b : B) :
  r ≫= f = Ok b ↔ ∃ a, r = Ok a ∧ f a = Ok b.
Proof.
  destruct r as [a|e]; simpl.
  - split; [eauto | intros (a' & [= ->] & H); exact H].
  - split; [discriminate | intros (a' & [=] & _)].
Qed.


Lemma index_Ok {A} (a : list A) (i : nat) (x : A) :
  index a i = Ok x ↔ a !! i = Some x.
Proof.
  unfold index. destruct (a !! i); split; congruence.
Qed.

(** Inverts a successful monadic computation in hypothesis [H]. *)
Ltac inv_ok H :=
  repeat match type of H with
  | _ ≫= _ = Ok _ =>
      let a := fresh "a" in
      let Ha := fresh "H" a in
      apply bind_Ok in H; destruct H as (a & Ha & H)
  end.

(** ** The working matrix *)

Lemma overflow_guard_false (tempy : list Z) : overflow_guard tempy = false.
Proof.
  unfold overflow_guard. apply Z.ltb_ge. destruct (np_any tempy); simpl; lia.
Qed.

Lemma working_matrix_rows (m : ndarray2 Z) (j : nat) :
  ncols m = S j → (7 ≤ S j)%nat →
  working_matrix m = Ok (Array2 (S (S j)) (map (split_row j) (rows m))).
Proof.
  intros Hc Hj. unfold working_matrix, last_column. rewrite Hc. simpl.
  rewrite overflow_guard_false.
  unfold set_column, concatenate_column. simpl. rewrite Hc.
  destruct (decide (7 < S (S j))%nat) as [_|Hn]; [|lia].
  do 2 f_equal. unfold column.
  rewrite zip_with_fmap_r, zip_with_fmap_r.
  rewrite zip_with_zip, zip_with_zip.
  induction (rows m) as [|r l IH]; simpl; [reflexivity|].
  f_equal. exact IH.
Qed.

Lemma working_matrix_short (m : ndarray2 Z) :
  (ncols m < 7)%nat → working_matrix m = Raise IndexError.
Proof.
  intros Hc. unfold working_matrix, last_column.
  destruct (ncols m) as [|j] eqn:E; [reflexivity|]. simpl.
  unfold set_column, concatenate_column. simpl. rewrite E.
  destruct (decide (7 < S (S j))%nat); [lia | reflexivity].
Qed.

Lemma split_row_length (j : nat) (r : list Z) :
  length (split_row j r) = S (length r).
Proof.
  unfold split_row. rewrite length_insert, length_app. simpl. lia.
Qed.

(** The two halves of the split entry, for a row of eight entries. *)
Lemma split_row_high (r : list Z) :
  length r = 8%nat → nth 7 (split_row 7 r) 0 = nth 7 r 0 `div` 65536.
Proof.
  intros Hr. do 9 (destruct r as [|? r]; try discriminate). reflexivity.
Qed.

Lemma split_row_low (r : list Z) :
  length r = 8%nat → nth 8 (split_row 7 r) 0 = nth 7 r 0 `mod` 65536.
Proof.
  intros Hr. do 9 (destruct r as [|? r]; try discriminate). reflexivity.
Qed.

Lemma split_row_other (r : list Z) (j : nat) :
  length r = 8%nat → (j < 7)%nat → nth j (split_row 7 r) 0 = nth j r 0.
Proof.
  intros Hr Hj. do 9 (destruct r as [|? r]; try discriminate).
  do 7 (destruct j as [|j]; [reflexivity|]). lia.
Qed.

(** The split loses nothing, whatever the sign of the entry. *)
Lemma split_row_recombine (r : list Z) :
  length r = 8%nat →
  nth 7 (split_row 7 r) 0 * 65536 + nth 8 (split_row 7 r) 0 = nth 7 r 0.
Proof.
  intros Hr. rewrite split_row_high, split_row_low by exact Hr.
  pose proof (Z.div_mod (nth 7 r 0) 65536). lia.
Qed.

(** ** The scale *)

Lemma broadcast_index_lt (a i : nat) : (i < a)%nat → broadcast_index a i = i.
Proof.
  unfold broadcast_index. intros Hi. destruct (decide (a = 1%nat)); lia.
Qed.

Lemma broadcast_dim_1_r (a : nat) : broadcast_dim a 1 = Some a.
Proof.
  unfold broadcast_dim.
  destruct (decide (a = 1%nat)) as [->|]; [reflexivity|].
  destruct (decide (1 = 1)%nat); [reflexivity | lia].
Qed.

Lemma broadcast_dim_diag (a : nat) : broadcast_dim a a = Some a.
Proof.
  unfold broadcast_dim. destruct (decide (a = a)); [reflexivity | lia].
Qed.

(** Division by a vector with one divisor per column: every row is
    divided entry by entry. *)
Lemma divide_vector (m : ndarray2 Z) (v : list Z) :
  rectangular m → length v = ncols m →
  divide m (VArray1 v)
  = Ok (Array2 (ncols m) (map (λ r, zip_with true_divide r v) (rows m))).
Proof.
  intros Hm Hv. unfold divide. simpl.
  rewrite broadcast_dim_1_r, Hv, broadcast_dim_diag. do 2 f_equal.
  apply list_eq. intros i. rewrite !list_lookup_fmap.
  destruct (rows m !! i) as [r|] eqn:E; simpl.
  - assert (Hi : (i < length (rows m))%nat) by (eapply lookup_lt_Some; exact E).
    rewrite lookup_seq_lt by exact Hi. simpl. f_equal.
    assert (Hr : length r = ncols m).
    { unfold rectangular in Hm. rewrite Forall_lookup in Hm. eapply Hm, E. }
    unfold entry. simpl. rewrite (broadcast_index_lt _ i) by exact Hi.
    erewrite (nth_lookup_Some (rows m)) by exact E.
    apply list_eq. intros j. rewrite list_lookup_fmap, lookup_zip_with.
    destruct (decide (j < ncols m)%nat) as [Hj|Hj].
    + rewrite lookup_seq_lt by exact Hj. simpl.
      rewrite (broadcast_index_lt _ j) by exact Hj.
      destruct (lookup_lt_is_Some_2 r j) as [x Hx]; [lia|].
      destruct (lookup_lt_is_Some_2 v j) as [y Hy]; [lia|].
      rewrite Hx, Hy. simpl.
      erewrite !nth_lookup_Some by eassumption. reflexivity.
    + rewrite lookup_seq_ge by lia. simpl.
      rewrite (lookup_ge_None_2 r) by lia. reflexivity.
  - rewrite lookup_seq_ge; [reflexivity|]. apply lookup_ge_None. exact E.
Qed.

(** ** The rounding of float64 *)

Lemma round_half_even_lower (n d : Z) :
  0 < d → d ≤ n → 1 ≤ round_half_even n d.
Proof.
  intros Hd Hn. unfold round_half_even.
  assert (1 ≤ n `div` d) by (apply Z.div_le_lower_bound; lia).
  repeat match goal with |- context [if ?c then _ else _] => destruct c end;
    lia.
Qed.

Lemma round_half_even_exact (n : Z) : round_half_even n 1 = n.
Proof.
  unfold round_half_even. rewrite Z.mod_1_r, Z.div_1_r. reflexivity.
Qed.

(** The exponent is not above the quotient. *)
Lemma binary_exponent_lower (a d : Z) :
  0 < a → 0 < d →
  d * 2 ^ Z.max (binary_exponent a d) 0
  ≤ a * 2 ^ Z.max (- binary_exponent a d) 0.
Proof.
  intros Ha Hd. unfold binary_exponent.
  set (k := Z.log2 a - Z.log2 d).
  destruct (d * 2 ^ Z.max k 0 <=? a * 2 ^ Z.max (- k) 0) eqn:E.
  - apply Z.leb_le. exact E.
  - clear E.
    pose proof (Z.log2_spec a Ha) as [Ha1 _].
    pose proof (Z.log2_spec d Hd) as [_ Hd2].
    pose proof (Z.log2_nonneg a) as Hla.
    pose proof (Z.log2_nonneg d) as Hld.
    destruct (Z.le_gt_cases 1 k) as [Hk|Hk].
    + rewrite (Z.max_l (k - 1) 0), (Z.max_r (- (k - 1)) 0) by lia.
      rewrite Z.pow_0_r, Z.mul_1_r.
      assert (H : 2 ^ Z.succ (Z.log2 d) * 2 ^ (k - 1) = 2 ^ Z.log2 a).
      { rewrite <- Z.pow_add_r by lia. f_equal. unfold k. lia. }
      assert (0 < 2 ^ (k - 1)) by (apply Z.pow_pos_nonneg; lia).
      nia.
    + rewrite (Z.max_r (k - 1) 0), (Z.max_l (- (k - 1)) 0) by lia.
      rewrite Z.pow_0_r, Z.mul_1_r.
      assert (H : 2 ^ Z.log2 a * 2 ^ (- (k - 1)) = 2 ^ Z.succ (Z.log2 d)).
      { rewrite <- Z.pow_add_r by lia. f_equal. unfold k. lia. }
      assert (0 < 2 ^ (- (k - 1))) by (apply Z.pow_pos_nonneg; lia).
      nia.
Qed.

Lemma scaled_significand_lower (a d e : Z) :
  0 < a → 0 < d → e ≤ binary_exponent a d →
  d * 2 ^ Z.max e 0 ≤ a * 2 ^ Z.max (- e) 0.
Proof.
  intros Ha Hd He.
  pose proof (binary_exponent_lower a d Ha Hd) as H.
  set (k := binary_exponent a d) in *.
  assert (Hpos : ∀ z, 0 < 2 ^ Z.max z 0)
    by (intros z; apply Z.pow_pos_nonneg; lia).
  assert (H1 : 2 ^ Z.max e 0 ≤ 2 ^ Z.max k 0)
    by (apply Z.pow_le_mono_r; lia).
  assert (H2 : 2 ^ Z.max (- k) 0 ≤ 2 ^ Z.max (- e) 0)
    by (apply Z.pow_le_mono_r; lia).
  pose proof (Hpos e). pose proof (Hpos k). pose proof (Hpos (- e)).
  pose proof (Hpos (- k)).
  destruct (Z.le_gt_cases 0 k) as [Hk|Hk].
  - rewrite (Z.max_r (- k) 0) in H by lia. rewrite Z.pow_0_r in H. nia.
  - rewrite (Z.max_r k 0) in H by lia. rewrite Z.pow_0_r in H.
    rewrite (Z.max_r e 0) by lia. rewrite Z.pow_0_r. nia.
Qed.

Lemma significand_pos (q : Q) : Qnum q ≠ 0 → 1 ≤ significand q.
Proof.
  intros Hn. unfold significand. apply round_half_even_lower.
  - assert (0 < 2 ^ Z.max (binary_exponent (Z.abs (Qnum q))
                             (Z.pos (Qden q)) - 52) 0)
      by (apply Z.pow_pos_nonneg; lia).
    nia.
  - apply scaled_significand_lower; lia.
Qed.

Lemma round53_nonzero (q : Q) :
  Qnum q ≠ 0 →
  let e := binary_exponent (Z.abs (Qnum q)) (Z.pos (Qden q)) - 52 in
  (round53 q == Qmake (Z.sgn (Qnum q) * significand q * 2 ^ Z.max e 0)
                      (Z.to_pos (2 ^ Z.max (- e) 0)))%Q.
Proof.
  intros Hn e. unfold round53.
  destruct (Qnum q =? 0) eqn:E; [apply Z.eqb_eq in E; contradiction|].
  apply Qred_correct.
Qed.

(** Rounding keeps the sign: no quotient is rounded to zero. *)
Lemma round53_sign (q : Q) :
  ((q < 0 → round53 q < 0) ∧ (0 < q → 0 < round53 q))%Q.
Proof.
  assert (Hp : ∀ z, 0 < 2 ^ Z.max z 0)
    by (intros z; apply Z.pow_pos_nonneg; lia).
  split; intros Hq.
  - assert (Hn : Qnum q < 0) by (unfold Qlt in Hq; simpl in Hq; lia).
    rewrite round53_nonzero by lia.
    pose proof (significand_pos q ltac:(lia)).
    unfold Qlt. simpl. rewrite Z.mul_1_r, Z.sgn_neg by lia.
    specialize (Hp (binary_exponent (Z.abs (Qnum q)) (Z.pos (Qden q)) - 52)).
    nia.
  - assert (Hn : 0 < Qnum q) by (unfold Qlt in Hq; simpl in Hq; lia).
    rewrite round53_nonzero by lia.
    pose proof (significand_pos q ltac:(lia)).
    unfold Qlt. simpl. rewrite Z.mul_1_r, Z.sgn_pos by lia.
    specialize (Hp (binary_exponent (Z.abs (Qnum q)) (Z.pos (Qden q)) - 52)).
    nia.
Qed.

(** An integer of at most 53 bits is its own float64 value. *)
Lemma round53_exact (x : Z) :
  Z.abs x ≤ 2 ^ 53 → round53 (inject_Z x) = inject_Z x.
Proof.
  intros Hx. unfold round53, significand, inject_Z. simpl.
  destruct (x =? 0) eqn:E; [apply Z.eqb_eq in E; subst; reflexivity|].
  apply Z.eqb_neq in E.
  assert (Ha : 0 < Z.abs x) by lia.
  pose proof (Z.log2_spec _ Ha) as [Hl1 Hl2].
  pose proof (Z.log2_nonneg (Z.abs x)) as Hl0.
  assert (Hexp : binary_exponent (Z.abs x) 1 = Z.log2 (Z.abs x)).
  { unfold binary_exponent. simpl Z.log2. rewrite Z.sub_0_r.
    rewrite (Z.max_l _ 0), (Z.max_r (- _) 0) by lia.
    rewrite Z.pow_0_r, Z.mul_1_r, Z.mul_1_l.
    destruct (_ <=? _) eqn:E'; [reflexivity|].
    apply Z.leb_gt in E'. lia. }
  rewrite Hexp. set (l := Z.log2 (Z.abs x)) in *.
  assert (Hl53 : l ≤ 53).
  { destruct (Z.le_gt_cases l 53) as [H|H]; [exact H|].
    assert (2 ^ 54 ≤ 2 ^ l) by (apply Z.pow_le_mono_r; lia). lia. }
  transitivity (Qred (inject_Z x)); [|apply inject_Z_Qred].
  apply Qred_complete. unfold Qeq, inject_Z. simpl.
  destruct (Z.le_gt_cases l 52) as [H52|H52].
  - rewrite (Z.max_r (l - 52) 0), (Z.max_l (- (l - 52)) 0) by lia.
    rewrite Z.pow_0_r, !Z.mul_1_r, round_half_even_exact.
    assert (0 < 2 ^ (- (l - 52))) by (apply Z.pow_pos_nonneg; lia).
    rewrite Z2Pos.id by lia.
    pose proof (Z.abs_sgn x) as Hs. nia.
  - assert (l = 53) by lia. subst l.
    assert (Habs : Z.abs x = 2 ^ 53).
    { replace (Z.log2 (Z.abs x)) with 53 in Hl1 by lia. lia. }
    replace (Z.log2 (Z.abs x)) with 53 by lia.
    rewrite Habs. vm_compute Z.max.
    change (round_half_even (2 ^ 53 * 2 ^ 0) (1 * 2 ^ 1)) with (2 ^ 52).
    change (Z.pos (Z.to_pos (2 ^ 0))) with 1.
    pose proof (Z.abs_sgn x) as Hs. rewrite Habs in Hs.
    change (2 ^ 53) with 9007199254740992 in Hs.
    change (2 ^ 52) with 4503599627370496.
    change (2 ^ Z.max (53 - 52) 0) with 2. lia.
Qed.

(** Division by one keeps an integer of at most 53 bits. *)
Lemma true_divide_1 (x : Z) :
  Z.abs x ≤ 2 ^ 53 → true_divide x 1 = Fin (inject_Z x).
Proof.
  intros Hx. unfold true_divide.
  destruct (decide (1 = 0)) as [H|_]; [discriminate H|].
  destruct (decide (x = 0)) as [->|_]; [reflexivity|].
  f_equal. unfold to_float64. rewrite (round53_exact x Hx).
  change (round53 (inject_Z 1)) with 1%Q.
  rewrite <- (round53_exact x Hx) at 2. f_equal.
  unfold Qdiv, Qmult, Qinv, inject_Z. simpl. rewrite Z.mul_1_r. reflexivity.
Qed.

(** A negative number divided by a positive one is negative. *)
Lemma true_divide_negative (x s : Z) :
  x < 0 → 0 < s → ∃ q, true_divide x s = Fin q ∧ (q < 0)%Q.
Proof.
  intros Hx Hs. unfold true_divide.
  destruct (decide (s = 0)); [lia|]. destruct (decide (x = 0)); [lia|].
  eexists. split; [reflexivity|].
  apply round53_sign. unfold to_float64.
  assert (Hfx : (round53 (inject_Z x) < 0)%Q).
  { apply round53_sign. change 0%Q with (inject_Z 0).
    rewrite <- Zlt_Qlt. exact Hx. }
  assert (Hfs : (0 < round53 (inject_Z s))%Q).
  { apply round53_sign. change 0%Q with (inject_Z 0).
    rewrite <- Zlt_Qlt. exact Hs. }
  apply Qlt_shift_div_r; [exact Hfs|]. rewrite Qmult_0_l. exact Hfx.
Qed.

(** ** The decoder on a block of the expected shape *)

Lemma column_decoded (l : list (list Z)) (v : list Z) (j : nat) :
  Forall (λ r, length r = 8%nat) l → length v = 9%nat → (j < 9)%nat →
  column NaN j (Array2 9 (map (λ r, zip_with true_divide r v)
                             (map (split_row 7) l)))
  = decoded_column l v j.
Proof.
  intros Hl Hv Hj. unfold column, decoded_column. simpl.
  rewrite !map_map. apply map_ext_Forall.
  eapply Forall_impl; [exact Hl|]. intros r Hr. simpl in Hr |- *.
  assert (Hs : length (split_row 7 r) = 9%nat)
    by (rewrite split_row_length; lia).
  destruct (lookup_lt_is_Some_2 (split_row 7 r) j) as [x Hx]; [lia|].
  destruct (lookup_lt_is_Some_2 v j) as [y Hy]; [lia|].
  erewrite (nth_lookup_Some (split_row 7 r)), (nth_lookup_Some v)
    by eassumption.
  apply nth_lookup_Some. rewrite lookup_zip_with, Hx, Hy. reflexivity.
Qed.

(** Whatever decodes has sequences of one length, the number of rows of
    the decoded matrix. *)
Lemma parse_gps_block_lengths (gps_block : list KLVItem) (t : GPSData) :
  parse_gps_block gps_block = Ok t →
  ∀ j, length (table_column t j) = npoints t.
Proof.
  unfold parse_gps_block. intros H. inv_ok H.
  destruct (decide (ncols a3 = 9%nat)) as [_|_]; [|discriminate H].
  inv_ok H. injection H as <-. intros j.
  do 8 (destruct j as [|j]; [apply length_map|]). apply length_map.
Qed.

(** A decoded block had its five records. *)
Lemma parse_gps_block_Ok_tags (gps_block : list KLVItem) (t : GPSData) :
  parse_gps_block gps_block = Ok t →
  Forall (λ tag, is_Some (make_block_dict gps_block !! tag)) required_tags.
Proof.
  unfold parse_gps_block. intros H. inv_ok H.
  destruct (decide (ncols a3 = 9%nat)) as [_|_]; [|discriminate H].
  inv_ok H.
  unfold getitem in *.
  repeat match goal with
  | Hg : match ?d !! ?k with _ => _ end = Ok _ |- _ =>
      destruct (d !! k) eqn:?; [clear Hg | discriminate Hg]
  end.
  repeat constructor; eauto.
Qed.

Lemma first_absent_Some (gps_block : list KLVItem) (tag : string) :
  first_absent gps_block = Some tag →
  tag ∈ required_tags ∧ make_block_dict gps_block !! tag = None.
Proof.
  unfold first_absent. intros H.
  apply find_some in H as [Hin H].
  apply bool_decide_eq_true in H. split; [|exact H].
  apply list_elem_of_In. exact Hin.
Qed.

Section DecodableBlock.
Variable gps_block : list KLVItem.
Variables gps9 scal stnm stmp unit_ : KLVItem.
Variable payload : ndarray2 Z.
Variable divisors : list Z.

Hypothesis has_gps9 : make_block_dict gps_block !! "GPS9" = Some gps9.
Hypothesis has_scal : make_block_dict gps_block !! "SCAL" = Some scal.
Hypothesis has_stnm : make_block_dict gps_block !! "STNM" = Some stnm.
Hypothesis has_stmp : make_block_dict gps_block !! "STMP" = Some stmp.
Hypothesis has_unit : make_block_dict gps_block !! "UNIT" = Some unit_.
Hypothesis gps9_value : value gps9 = VArray2 payload.
Hypothesis scal_value : value scal = VArray1 divisors.
Hypothesis payload_rect : rectangular payload.
Hypothesis payload_cols : ncols payload = 8%nat.
Hypothesis divisors_length : length divisors = 9%nat.

(** A block with the five records, a payload of eight columns and nine
    divisors is decoded, column by column. *)
Lemma parse_gps_block_decodable :
  parse_gps_block gps_block
  = Ok {| description := value stnm;
          timestamp := (decoded_column (rows payload) divisors 5,
                        decoded_column (rows payload) divisors 6);
          micros_after_start := stmp;
          precision := decoded_column (rows payload) divisors 7;
          fix_ := decoded_column (rows payload) divisors 8;
          latitude := decoded_column (rows payload) divisors 0;
          longitude := decoded_column (rows payload) divisors 1;
          altitude := decoded_column (rows payload) divisors 2;
          speed_2d := decoded_column (rows payload) divisors 3;
          speed_3d := decoded_column (rows payload) divisors 4;
          units := value unit_;
          npoints := length (rows payload) |}.
Proof.
  unfold parse_gps_block, getitem.
  rewrite has_gps9, has_scal, has_stnm, has_stmp, has_unit. simpl.
  rewrite gps9_value. simpl.
  rewrite (working_matrix_rows payload 7) by (rewrite ?payload_cols; lia).
  simpl. rewrite scal_value.
  assert (Hrows : Forall (λ r, length r = 8%nat) (rows payload)).
  { unfold rectangular in payload_rect. rewrite payload_cols in payload_rect.
    exact payload_rect. }
  rewrite divide_vector; simpl.
  - destruct (decide (9 = 9)%nat) as [_|Hn]; [|lia].
    rewrite !column_decoded by (assumption || lia).
    rewrite !length_map. reflexivity.
  - unfold rectangular. simpl. rewrite Forall_fmap.
    eapply Forall_impl; [exact Hrows|]. intros r Hr. simpl in Hr |- *.
    rewrite split_row_length. lia.
  - exact divisors_length.
Qed.


(** ** The decoder: claims *)

(** C1 (the code departs from it). The claim has 2^32 added to a packed
    entry that reads as negative before it is split. The guard of the
    code compares a boolean with zero and never holds, so nothing is
    added: for the packed entry 0x80000003, read as -2147483645, the code
    stores -32768 as the high half, where the claim gives 32768. The low
    half, 3, is the same either way. *)
Theorem packed_entry_with_top_bit_is_not_unwrapped :
  working_matrix payload_top_bit
  = Ok (Array2 9 [ [10; 20; 5; 1; 2; 9000; 100; -32768; 3] ]) ∧
  overflow_guard [-2147483645] = false ∧
  (-2147483645 + 4294967296) `div` 65536 = 32768 ∧
  (-2147483645 + 4294967296) `mod` 65536 = 3.
Proof. repeat split; reflexivity. Qed.

(** C2, as stated, fails: a payload of nine columns gives a working matrix
    of ten columns, and the decoder then raises when it unpacks ten columns
    into nine names, with ten divisors as with nine. *)
Lemma ten_column_working_matrix_is_not_decoded :
  (∃ wm, working_matrix payload_9 = Ok wm ∧ ncols wm = 10%nat) ∧
  parse_gps_block (block_of payload_9 (ones 10)) = Raise ValueError ∧
  parse_gps_block (block_of payload_9 (ones 9)) = Raise ValueError.
Proof.
  split; [eexists; split; reflexivity|]. split; reflexivity.
Qed.

(** C2, amended: the working matrix has nine columns (the eight columns of
    the payload, the last of them split in two). Decoding divides every
    entry of column [j] by divisor [j], in float64, and with nine divisors
    equal to one the decoded table holds the entries of the working
    matrix, for entries of at most 53 bits (as those of a 32-bit payload
    are). *)
Theorem scale_is_entrywise_division :
  ∃ wm t,
    working_matrix payload = Ok wm ∧ ncols wm = 9%nat ∧
    parse_gps_block gps_block = Ok t ∧
    ∀ j, (j < 9)%nat →
      table_column t j
      = map (λ r, true_divide (nth j r 0) (nth j divisors 0)) (rows wm) ∧
      (divisors = ones 9 →
       Forall (λ r, Z.abs (nth j r 0) ≤ 2 ^ 53) (rows wm) →
       table_column t j = map (λ r, Fin (inject_Z (nth j r 0))) (rows wm)).
Proof.
  eexists _, _. split; [|split; [|split]].
  - apply (working_matrix_rows payload 7); [exact payload_cols | lia].
  - reflexivity.
  - exact parse_gps_block_decodable.
  - intros j Hj.
    assert (Hcol : table_column
              {| description := value stnm;
                 timestamp := (decoded_column (rows payload) divisors 5,
                               decoded_column (rows payload) divisors 6);
                 micros_after_start := stmp;
                 precision := decoded_column (rows payload) divisors 7;
                 fix_ := decoded_column (rows payload) divisors 8;
                 latitude := decoded_column (rows payload) divisors 0;
                 longitude := decoded_column (rows payload) divisors 1;
                 altitude := decoded_column (rows payload) divisors 2;
                 speed_2d := decoded_column (rows payload) divisors 3;
                 speed_3d := decoded_column (rows payload) divisors 4;
                 units := value unit_;
                 npoints := length (rows payload) |} j
            = decoded_column (rows payload) divisors j).
    { do 9 (destruct j as [|j]; [reflexivity|]). lia. }
    rewrite Hcol. unfold decoded_column. simpl. rewrite !map_map.
    split; [reflexivity|]. intros -> Hb. rewrite Forall_fmap in Hb.
    apply map_ext_Forall. eapply Forall_impl; [exact Hb|].
    intros r Hr. simpl in Hr. cbv beta.
    assert (H1 : nth j (ones 9) 0 = 1)
      by (do 9 (destruct j as [|j]; [reflexivity|]); lia).
    rewrite H1. apply true_divide_1, Hr.
Qed.

(** C8, amended: a block with the five records, a payload of eight
    columns and nine divisors is decoded, and the nine sequences of the
    table all have the length [npoints], the number of rows of the
    payload. *)
Theorem decoded_sequences_have_npoints :
  ∃ t,
    parse_gps_block gps_block = Ok t ∧
    length (latitude t) = npoints t ∧
    length (longitude t) = npoints t ∧
    length (altitude t) = npoints t ∧
    length (speed_2d t) = npoints t ∧
    length (speed_3d t) = npoints t ∧
    length (fix_ t) = npoints t ∧
    length (precision t) = npoints t ∧
    length (fst (timestamp t)) = npoints t ∧
    length (snd (timestamp t)) = npoints t ∧
    npoints t = length (rows payload).
Proof.
  eexists. split; [exact parse_gps_block_decodable|]. simpl.
  unfold decoded_column. rewrite !length_map. repeat split; reflexivity.
Qed.

End DecodableBlock.

(** C6, as stated, fails: when another step fails before the lookup of the
    absent tag, its exception is the one raised. Without STNM, the
    nine-column block raises at the unpacking; without SCAL, a payload
    of three columns raises at the assignment to column 7. *)
Lemma absent_tag_behind_a_shape_error :
  first_absent block_9_without_stnm = Some "STNM" ∧
  parse_gps_block block_9_without_stnm = Raise ValueError ∧
  first_absent block_3_without_scal = Some "SCAL" ∧
  parse_gps_block block_3_without_scal = Raise IndexError.
Proof. repeat split; reflexivity. Qed.

(** C8, as stated, fails on the blocks whose payload has one column per
    field: with the five records, nine columns and nine divisors, or ten,
    the decoder returns no table. *)
Lemma nine_field_block_has_no_table :
  rectangular payload_9 ∧ ncols payload_9 = 9%nat ∧
  first_absent block_nine_fields = None ∧
  parse_gps_block block_nine_fields = Raise ValueError ∧
  parse_gps_block (block_of payload_9 (ones 10)) = Raise ValueError ∧
  ¬ ∃ t, parse_gps_block block_nine_fields = Ok t.
Proof.
  split; [repeat constructor|]. repeat split; try reflexivity.
  intros [t Ht]. vm_compute in Ht. discriminate Ht.
Qed.

(** C6, amended: a block without one of the five tags is never decoded, so
    it contributes no points. The exception is the [KeyError] of the
    absent tag when GPS9 is absent, and the [KeyError] of the first absent
    tag when the GPS9 and SCAL records that are present have the expected
    shapes. *)
Theorem absent_tag_is_not_decoded (gps_block : list KLVItem) (tag : string) :
  tag ∈ required_tags →
  make_block_dict gps_block !! tag = None →
  (∃ e, parse_gps_block gps_block = Raise e) ∧
  (make_block_dict gps_block !! "GPS9" = None →
   parse_gps_block gps_block = Raise (KeyError (KStr "GPS9"))) ∧
  (expected_shapes gps_block →
   ∀ tag', first_absent gps_block = Some tag' →
     parse_gps_block gps_block = Raise (KeyError (KStr tag'))).
Proof.
  intros Hin Habs. split; [|split].
  - destruct (parse_gps_block gps_block) as [t|e] eqn:E; [|eauto].
    apply parse_gps_block_Ok_tags in E. rewrite Forall_forall in E.
    destruct (E tag Hin) as [s Hs]. congruence.
  - intros H9. unfold parse_gps_block, getitem. rewrite H9. reflexivity.
  - intros [Hg Hs] tag' Hfa.
    unfold first_absent, required_tags in Hfa. simpl in Hfa.
    unfold parse_gps_block, getitem.
    set (d := make_block_dict gps_block) in *.
    destruct (d !! "GPS9") as [g|] eqn:E9; simpl in Hfa |- *;
      [|injection Hfa as <-; reflexivity].
    destruct (Hg g eq_refl) as (m & Hm & Hrect & Hc). rewrite Hm. simpl.
    rewrite (working_matrix_rows m 7) by (rewrite ?Hc; lia). simpl.
    destruct (d !! "SCAL") as [s|] eqn:ES; simpl in Hfa |- *;
      [|injection Hfa as <-; reflexivity].
    destruct (Hs s eq_refl) as (v & Hv & Hl). rewrite Hv.
    rewrite divide_vector; simpl; [| |exact Hl].
    + destruct (d !! "STNM") as [?|] eqn:E1; simpl in Hfa |- *;
        [|injection Hfa as <-; reflexivity].
      destruct (d !! "STMP") as [?|] eqn:E2; simpl in Hfa |- *;
        [|injection Hfa as <-; reflexivity].
      destruct (d !! "UNIT") as [?|] eqn:E3; simpl in Hfa |- *;
        [discriminate Hfa | injection Hfa as <-; reflexivity].
    + unfold rectangular in *. simpl. rewrite Forall_fmap.
      eapply Forall_impl; [exact Hrect|]. intros r Hr. simpl in Hr |- *.
      rewrite split_row_length. lia.
Qed.

(** ** The extractor *)

Lemma scan_children_spec (elts content : list KLVItem) (is_gps : bool) :
  scan_children elts content is_gps
  = (content ++ elts,
     is_gps || bool_decide (Exists (λ elt, key elt = "GPS9") elts)).
Proof.
  revert content is_gps.
  induction elts as [|elt elts IH]; intros content is_gps; simpl.
  - rewrite app_nil_r, orb_false_r. reflexivity.
  - rewrite IH, <- app_assoc. simpl. f_equal.
    destruct (decide (key elt = "GPS9")) as [Hk|Hk].
    + rewrite (bool_decide_eq_true_2 (Exists _ (elt :: elts)))
        by (constructor; exact Hk).
      rewrite orb_true_r. reflexivity.
    + f_equal. apply bool_decide_ext. rewrite Exists_cons. tauto.
Qed.

(** C7: when every record tagged STRM is a container, the extractor runs
    to its end without an exception and yields, in stream order, the
    children of the top-level containers that have a child tagged GPS9,
    each group being all the children of its container in their order. *)
Theorem extract_gps_blocks_yields_gps_containers (stream : list KLVItem) :
  (∀ s, s ∈ stream → key s = "STRM" → ∃ items, value s = VItems items) →
  extract_gps_blocks stream
  = (children <$> filter is_gps_container stream, None).
Proof.
  unfold extract_gps_blocks, filter_klv.
  induction stream as [|s stream IH]; intros Hc; [reflexivity|].
  assert (IH' := IH (λ s' Hs', Hc s' (list_elem_of_further _ _ _ Hs'))).
  clear IH.
  destruct (decide (key s = "STRM")) as [Hk|Hk].
  - rewrite filter_cons_True by exact Hk.
    destruct (Hc s (list_elem_of_here _ _) Hk) as [items Hv].
    destruct s as [k v]. simpl in Hk, Hv. subst v. simpl.
    rewrite scan_children_spec, IH'. simpl.
    destruct (decide (Exists (λ elt, key elt = "GPS9") items)) as [He|He].
    + rewrite bool_decide_eq_true_2 by exact He.
      rewrite (filter_cons_True is_gps_container); [reflexivity|].
      split; [exact Hk | exact He].
    + rewrite bool_decide_eq_false_2 by exact He.
      rewrite (filter_cons_False is_gps_container); [reflexivity|].
      intros [_ He']. apply He, He'.
  - rewrite filter_cons_False by exact Hk.
    rewrite (filter_cons_False is_gps_container); [exact IH'|].
    intros [Hk' _]. tauto.
Qed.

(** ** The fix codes *)


Lemma FIX_TYPE_Ok (c : npfloat) (label : string) :
  FIX_TYPE c = Ok label → known_fix c.
Proof.
  intros H. destruct c as [q| | | |]; try discriminate H;
    [|left; reflexivity].
  simpl in H. right. exists q. split; [reflexivity|].
  destruct (Qeq_bool q 0) eqn:E0; [apply Qeq_bool_iff in E0; tauto|].
  destruct (Qeq_bool q 2) eqn:E2; [apply Qeq_bool_iff in E2; tauto|].
  destruct (Qeq_bool q 3) eqn:E3; [apply Qeq_bool_iff in E3; tauto|].
  discriminate H.
Qed.


(** ** The assembler *)

Lemma lt_10_Fin (q : Q) : lt_10 (Fin q) = true ↔ (q < 10)%Q.
Proof.
  simpl. rewrite negb_true_iff, <- not_true_iff_false, Qle_bool_iff.
  split; [apply Qnot_le_lt | apply Qlt_not_le].
Qed.

Section AssemblerProperties.
Context `{RT : PyRuntime}.

Lemma time_of_sample_Ok (g : GPSData) (i : nat) (t : datetime) :
  time_of_sample g i = Ok t ↔ is_time_of_sample g i t.
Proof.
  unfold time_of_sample, is_time_of_sample. split.
  - intros H. inv_ok H. apply index_Ok in Ha, Ha0. eauto 10.
  - intros (d & s & delta & Hd & Hs & Ht & H).
    apply index_Ok in Hd, Hs. rewrite Hd. simpl. rewrite Hs. simpl.
    rewrite Ht. exact H.
Qed.

Lemma start_time_of_Ok (g : GPSData) (t : datetime) :
  start_time_of g = Ok t ↔ is_start_time_of g t.
Proof.
  unfold start_time_of, is_start_time_of. split.
  - intros H. inv_ok H. apply time_of_sample_Ok in Ha. eauto 10.
  - intros (t0 & micros & delta & H0 & Hm & Hd & H).
    apply time_of_sample_Ok in H0. rewrite H0. simpl. rewrite Hm. simpl.
    rewrite Hd. exact H.
Qed.

Lemma precision_gate_true (g : GPSData) :
  precision_gate g = Ok true ↔ passes_gate g.
Proof.
  unfold precision_gate, passes_gate, index.
  destruct (precision g !! 0%nat) as [p|]; simpl; split.
  - intros [= H]. eauto.
  - intros (p' & [= <-] & H). rewrite H. reflexivity.
  - discriminate.
  - intros (p' & [=] & _).
Qed.

Lemma precision_gate_false (g : GPSData) :
  precision_gate g = Ok false ↔ misses_gate g.
Proof.
  unfold precision_gate, misses_gate, index.
  destruct (precision g !! 0%nat) as [p|]; simpl; split.
  - intros [= H]. eauto.
  - intros (p' & [= <-] & H). rewrite H. reflexivity.
  - discriminate.
  - intros (p' & [=] & _).
Qed.

Lemma _make_speed_extensions_Ok (g : GPSData) (i : nat) (l : list Element) :
  _make_speed_extensions g i = Ok l →
  ∃ v2 v3, speed_2d g !! i = Some v2 ∧ speed_3d g !! i = Some v3 ∧
           l = speed_elements (format_g v2) (format_g v3).
Proof.
  unfold _make_speed_extensions. intros H. inv_ok H.
  apply index_Ok in Ha, Ha0. injection H as <-. eauto.
Qed.

(** A point that was made carries the fields of its sample, and its
    extensions are those of sample 0 or none. *)
Lemma make_point_Ok (g : GPSData) (se : bool) (i : nat) (p : GPXTrackPoint) :
  make_point g se i = Ok p →
  is_point_of_sample g i p ∧
  tp_symbol p = "Square" ∧
  (if se then _make_speed_extensions g 0 else Ok []) = Ok (tp_extensions p).
Proof.
  unfold make_point, is_point_of_sample. intros H. inv_ok H.
  injection H as <-. simpl.
  apply time_of_sample_Ok in Ha.
  repeat match goal with
  | Hi : index _ _ = Ok _ |- _ => apply index_Ok in Hi
  end.
  repeat split; eauto.
Qed.


Lemma points_loop_Ok (g : GPSData) (se : bool) (indices : list nat)
    (segment segment' : GPXTrackSegment) :
  points_loop g se indices segment = Ok segment' →
  ∃ ps, Forall2 (λ i p, make_point g se i = Ok p) indices ps ∧
        segment' = segment ++ ps.
Proof.
  revert segment.
  induction indices as [|i indices IH]; intros segment; simpl.
  - intros [= <-]. exists []. split; [constructor|].
    rewrite app_nil_r. reflexivity.
  - intros H. apply bind_Ok in H as (tp & Htp & H).
    apply IH in H as (ps & Hps & ->). exists (tp :: ps).
    split; [constructor; assumption|]. rewrite <- app_assoc. reflexivity.
Qed.

(** The points of a run that ends well: one list per table, made from the
    indices below [stop], in order. *)
Lemma blocks_loop_points (gps_blocks : list GPSData) (fo se : bool)
    (segment segment' : GPXTrackSegment) (st st' : option datetime) :
  blocks_loop gps_blocks fo se segment st = Ok (segment', st') →
  ∃ pss,
    Forall2 (λ g ps, Forall2 (λ i p, make_point g se i = Ok p)
                       (seq 0 (stop_of fo g)) ps) gps_blocks pss ∧
    segment' = segment ++ concat pss.
Proof.
  revert segment st.
  induction gps_blocks as [|g bs IH]; intros segment st; simpl.
  - intros [= <- _]. exists []. split; [constructor|].
    rewrite app_nil_r. reflexivity.
  - intros H. inv_ok H.
    apply points_loop_Ok in Ha1 as (ps & Hps & ->).
    apply IH in H as (pss & Hpss & ->). exists (ps :: pss).
    split; [constructor; assumption|]. simpl.
    rewrite <- app_assoc. reflexivity.
Qed.

(** The variable [starttime] after a run that ends well: unchanged when
    no table passed the gate, and otherwise the start time of the last
    table that passed it. *)
Lemma blocks_loop_starttime (gps_blocks : list GPSData) (fo se : bool)
    (segment segment' : GPXTrackSegment) (st st' : option datetime) :
  blocks_loop gps_blocks fo se segment st = Ok (segment', st') →
  (Forall misses_gate gps_blocks ∧ st' = st) ∨
  (∃ pre g post t,
     gps_blocks = pre ++ g :: post ∧ passes_gate g ∧
     Forall misses_gate post ∧ is_start_time_of g t ∧ st' = Some t).
Proof.
  revert segment st.
  induction gps_blocks as [|g bs IH]; intros segment st; simpl.
  - intros [= _ <-]. left. split; [constructor | reflexivity].
  - intros H. inv_ok H. destruct a as [|].
    + apply precision_gate_true in Ha. inv_ok Ha0. injection Ha0 as <-.
      apply start_time_of_Ok in Ha2.
      apply IH in H as [[Hm ->] | (pre & g' & post & t & -> & Hrest)].
      * right. exists [], g, bs, a. auto.
      * right. exists (g :: pre), g', post, t. auto.
    + apply precision_gate_false in Ha. injection Ha0 as <-.
      apply IH in H as [[Hm ->] | (pre & g' & post & t & -> & Hrest)].
      * left. split; [constructor; assumption | reflexivity].
      * right. exists (g :: pre), g', post, t. auto.
Qed.

Lemma make_pgx_segment_Ok (gps_blocks : list GPSData) (fo se : bool)
    (segment : GPXTrackSegment) (t : datetime) :
  make_pgx_segment gps_blocks fo se = Ok (segment, t) ↔
  blocks_loop gps_blocks fo se [] None = Ok (segment, Some t).
Proof.
  unfold make_pgx_segment.
  destruct (blocks_loop gps_blocks fo se [] None) as [[seg [t'|]]|e]; simpl;
    split; intros H; try discriminate H; injection H as <- <-; reflexivity.
Qed.

Lemma misses_not_passes (g : GPSData) : misses_gate g → ¬ passes_gate g.
Proof.
  intros (p & Hp & Hf) (p' & Hp' & Ht). congruence.
Qed.

(** ** The assembler: claims *)

(** C3: when the assembler returns, the start time it returns is the one
    of the last table whose first dilution of precision is below 10: the
    epoch plus the days and the seconds of sample 0 of that table, minus
    the microseconds of its STMP record. No later table passes the
    gate. *)
Theorem starttime_is_of_last_gated_table (gps_blocks : list GPSData)
    (first_only speeds_as_extensions : bool)
    (segment : GPXTrackSegment) (starttime : datetime) :
  make_pgx_segment gps_blocks first_only speeds_as_extensions
  = Ok (segment, starttime) →
  ∃ pre g post,
    gps_blocks = pre ++ g :: post ∧
    passes_gate g ∧
    Forall misses_gate post ∧
    ∃ days seconds delta t0 micros delta',
      fst (timestamp g) !! 0%nat = Some days ∧
      snd (timestamp g) !! 0%nat = Some seconds ∧
      timedelta_days_seconds days seconds = Ok delta ∧
      datetime_add epoch delta = Ok t0 ∧
      int_of_value (value (micros_after_start g)) = Ok micros ∧
      timedelta_microseconds (micros * -1) = Ok delta' ∧
      datetime_add t0 delta' = Ok starttime.
Proof.
  intros H. apply make_pgx_segment_Ok, blocks_loop_starttime in H.
  destruct H as [[_ [=]] | (pre & g & post & t & -> & Hg & Hpost & Ht & [= <-])].
  exists pre, g, post. repeat split; try assumption.
  destruct Ht as (t0 & micros & delta' & (d & s & delta & ?) & ?).
  exists d, s, delta, t0, micros, delta'. tauto.
Qed.

(** C4: when the assembler returns, the segment is made of one run of
    points per table, in the order of the tables; the run of a table has
    [stop] points, 1 with [first_only] and [npoints] otherwise, and its
    point [i] carries the latitude, longitude, altitude, 3D speed (as
    speed) and dilution of precision of sample [i], and the time epoch
    plus days [i] plus seconds [i]. *)
Theorem points_are_the_samples_below_stop (gps_blocks : list GPSData)
    (first_only speeds_as_extensions : bool)
    (segment : GPXTrackSegment) (starttime : datetime) :
  make_pgx_segment gps_blocks first_only speeds_as_extensions
  = Ok (segment, starttime) →
  ∃ runs,
    segment = concat runs ∧
    Forall2 (λ g run,
      length run = (if first_only then 1%nat else npoints g) ∧
      ∀ i, (i < (if first_only then 1 else npoints g))%nat →
        ∃ p, run !! i = Some p ∧
          latitude g !! i = Some (tp_latitude p) ∧
          longitude g !! i = Some (tp_longitude p) ∧
          altitude g !! i = Some (tp_elevation p) ∧
          speed_3d g !! i = Some (tp_speed p) ∧
          precision g !! i = Some (tp_position_dilution p) ∧
          ∃ days seconds delta,
            fst (timestamp g) !! i = Some days ∧
            snd (timestamp g) !! i = Some seconds ∧
            timedelta_days_seconds days seconds = Ok delta ∧
            datetime_add epoch delta = Ok (tp_time p))
      gps_blocks runs.
Proof.
  intros H. apply make_pgx_segment_Ok, blocks_loop_points in H.
  destruct H as (runs & Hruns & ->). exists runs.
  split; [reflexivity|].
  eapply Forall2_impl; [exact Hruns|]. clear Hruns.
  intros g run Hrun. simpl in Hrun. unfold stop_of in Hrun.
  set (stop := if first_only then 1%nat else npoints g) in *.
  split.
  - apply Forall2_length in Hrun. rewrite length_seq in Hrun. lia.
  - intros i Hi.
    assert (Hseq : seq 0 stop !! i = Some i) by (apply lookup_seq_lt; exact Hi).
    destruct (Forall2_lookup_l _ _ _ _ _ Hrun Hseq) as (p & Hp & Hmk).
    exists p. split; [exact Hp|].
    apply make_point_Ok in Hmk as [(? & ? & ? & ? & ? & ? & _) _].
    repeat split; assumption.
Qed.


(** C9: with [speeds_as_extensions], every point of the segment belongs
    to a sample [i] of a table [g] of the input, and its extensions are
    exactly two elements, speed_2d and speed_3d, each with a value and
    the unit m/s; the two values are those of sample 0 of [g], whatever
    [i] is. *)
Theorem extensions_are_the_speeds_of_sample_0 (gps_blocks : list GPSData)
    (first_only : bool) (segment : GPXTrackSegment) (starttime : datetime) :
  make_pgx_segment gps_blocks first_only true = Ok (segment, starttime) →
  ∀ p, p ∈ segment →
    ∃ g i v2 v3,
      g ∈ gps_blocks ∧ (i < stop_of first_only g)%nat ∧
      is_point_of_sample g i p ∧
      speed_2d g !! 0%nat = Some v2 ∧
      speed_3d g !! 0%nat = Some v3 ∧
      tp_extensions p
      = [ mkElement "speed_2d" None
            [ mkElement "value" (Some (format_g v2)) [];
              mkElement "unit" (Some "m/s") [] ];
          mkElement "speed_3d" None
            [ mkElement "value" (Some (format_g v3)) [];
              mkElement "unit" (Some "m/s") [] ] ].
Proof.
  intros H p Hp. apply make_pgx_segment_Ok, blocks_loop_points in H.
  destruct H as (runs & Hruns & ->). simpl in Hp.
  apply list_elem_of_In, in_concat in Hp as (run & Hrun & Hp).
  apply list_elem_of_In, list_elem_of_lookup in Hrun as [n Hn].
  destruct (Forall2_lookup_r _ _ _ _ _ Hruns Hn) as (g & Hg & Hmk).
  simpl in Hmk.
  apply list_elem_of_In, list_elem_of_lookup in Hp as [k Hk].
  destruct (Forall2_lookup_r _ _ _ _ _ Hmk Hk) as (i & Hi & Hpi).
  apply lookup_seq in Hi as [-> Hi]. simpl in Hpi.
  apply make_point_Ok in Hpi as (Hpoint & _ & Hext).
  apply _make_speed_extensions_Ok in Hext as (v2 & v3 & H2 & H3 & Hl).
  exists g, k, v2, v3. split.
  { apply list_elem_of_lookup. eauto. }
  repeat split; try assumption; apply Hpoint.
Qed.

(** C10: the assembler returns only if a table of the input has a first
    dilution of precision below 10. When no table has one, and so for the
    empty input, the run raises: the exception of the loop if the loop
    raises, and otherwise [UnboundLocalError] for [starttime], which was
    never assigned. *)
Theorem no_gated_table_no_segment (gps_blocks : list GPSData)
    (first_only speeds_as_extensions : bool) :
  (∀ segment starttime,
     make_pgx_segment gps_blocks first_only speeds_as_extensions
     = Ok (segment, starttime) →
     ∃ g, g ∈ gps_blocks ∧ passes_gate g) ∧
  ((∀ g, g ∈ gps_blocks → ¬ passes_gate g) →
   (∃ segment,
      blocks_loop gps_blocks first_only speeds_as_extensions [] None
      = Ok (segment, None) ∧
      make_pgx_segment gps_blocks first_only speeds_as_extensions
      = Raise (UnboundLocalError "starttime")) ∨
   (∃ e,
      blocks_loop gps_blocks first_only speeds_as_extensions [] None
      = Raise e ∧
      make_pgx_segment gps_blocks first_only speeds_as_extensions
      = Raise e)) ∧
  make_pgx_segment [] first_only speeds_as_extensions
  = Raise (UnboundLocalError "starttime").
Proof.
  split; [|split; [|reflexivity]].
  - intros segment starttime H.
    apply make_pgx_segment_Ok, blocks_loop_starttime in H.
    destruct H as [[_ [=]] | (pre & g & post & t & -> & Hg & _)].
    exists g. split; [|exact Hg]. apply elem_of_app. right. left.
  - intros Hnone. unfold make_pgx_segment.
    destruct (blocks_loop gps_blocks first_only speeds_as_extensions [] None)
      as [[seg st]|e] eqn:E; simpl; [|right; eauto].
    left. exists seg.
    apply blocks_loop_starttime in E.
    destruct E as [[_ ->] | (pre & g & post & t & -> & Hg & _)];
      [split; reflexivity|].
    exfalso. apply (Hnone g); [|exact Hg].
    apply elem_of_app. right. left.
Qed.

End AssemblerProperties.

(** * The theorems at work on the examples *)

(** The two-sample payload with nine divisors equal to one. *)
Lemma scale_is_entrywise_division_witness :
  rectangular payload_8 ∧
  ∃ wm t,
    working_matrix payload_8 = Ok wm ∧ ncols wm = 9%nat ∧
    parse_gps_block (block_of payload_8 (ones 9)) = Ok t ∧
    ∀ j, (j < 9)%nat →
      table_column t j
      = map (λ r, true_divide (nth j r 0) (nth j (ones 9) 0)) (rows wm) ∧
      table_column t j = map (λ r, Fin (inject_Z (nth j r 0))) (rows wm).
Proof.
  assert (Hrect : rectangular payload_8) by repeat constructor.
  split; [exact Hrect|].
  destruct (scale_is_entrywise_division
              (block_of payload_8 (ones 9))
              (KLV "GPS9" (VArray2 payload_8))
              (KLV "SCAL" (VArray1 (ones 9)))
              (KLV "STNM"
                 (VStr "GPS (Lat., Long., Alt., 2D, 3D, days, secs, DOP, fix)"))
              (KLV "STMP" (VInt 1500))
              (KLV "UNIT" (VStr "degmmm/sm/s"))
              payload_8 (ones 9)
              eq_refl eq_refl eq_refl eq_refl eq_refl eq_refl eq_refl
              Hrect eq_refl eq_refl)
    as (wm & t & Hwm & Hc & Ht & Hall).
  exists wm, t. split; [exact Hwm|]. split; [exact Hc|]. split; [exact Ht|].
  intros j Hj. destruct (Hall j Hj) as [Hdiv Hones].
  split; [exact Hdiv|]. apply Hones; [reflexivity|].
  vm_compute in Hwm. injection Hwm as <-. simpl.
  repeat constructor;
    do 9 (destruct j as [|j]; [vm_compute; discriminate|]); lia.
Defined.

(** The two-sample payload with the divisors of a camera. *)
Lemma decoded_sequences_have_npoints_witness :
  rectangular payload_8 ∧
  ∃ t,
    parse_gps_block (block_of payload_8 [10000000; 10000000; 1000; 1000; 100;
                                         1; 1000; 100; 1]) = Ok t ∧
    length (latitude t) = npoints t ∧
    length (longitude t) = npoints t ∧
    length (altitude t) = npoints t ∧
    length (speed_2d t) = npoints t ∧
    length (speed_3d t) = npoints t ∧
    length (fix_ t) = npoints t ∧
    length (precision t) = npoints t ∧
    length (fst (timestamp t)) = npoints t ∧
    length (snd (timestamp t)) = npoints t ∧
    npoints t = 2%nat.
Proof.
  assert (Hrect : rectangular payload_8) by repeat constructor.
  split; [exact Hrect|].
  apply (decoded_sequences_have_npoints
           (block_of payload_8 [10000000; 10000000; 1000; 1000; 100;
                                1; 1000; 100; 1])
           (KLV "GPS9" (VArray2 payload_8))
           (KLV "SCAL" (VArray1 [10000000; 10000000; 1000; 1000; 100;
                                 1; 1000; 100; 1]))
           (KLV "STNM"
              (VStr "GPS (Lat., Long., Alt., 2D, 3D, days, secs, DOP, fix)"))
           (KLV "STMP" (VInt 1500))
           (KLV "UNIT" (VStr "degmmm/sm/s"))
           payload_8
           [10000000; 10000000; 1000; 1000; 100; 1; 1000; 100; 1]);
    try reflexivity.
  exact Hrect.
Defined.

(** The block of two samples without STNM, and a block without GPS9. *)
Lemma absent_tag_is_not_decoded_witness :
  expected_shapes block_8_without_stnm ∧
  first_absent block_8_without_stnm = Some "STNM" ∧
  parse_gps_block block_8_without_stnm = Raise (KeyError (KStr "STNM")) ∧
  make_block_dict block_without_gps9 !! "GPS9" = None ∧
  parse_gps_block block_without_gps9 = Raise (KeyError (KStr "GPS9")).
Proof.
  assert (Hshape : expected_shapes block_8_without_stnm).
  { split.
    - intros g Hg. vm_compute in Hg. injection Hg as <-.
      exists payload_8. split; [reflexivity|].
      split; [repeat constructor | reflexivity].
    - intros g Hg. vm_compute in Hg. injection Hg as <-.
      exists camera_divisors. split; reflexivity. }
  split; [exact Hshape|]. split; [reflexivity|]. split; [|split].
  - destruct (absent_tag_is_not_decoded block_8_without_stnm "STNM")
      as (_ & _ & H);
      [apply (bool_decide_unpack _); vm_compute; reflexivity | reflexivity|].
    apply H; [exact Hshape | reflexivity].
  - reflexivity.
  - destruct (absent_tag_is_not_decoded block_without_gps9 "GPS9")
      as (_ & H & _);
      [apply (bool_decide_unpack _); vm_compute; reflexivity | reflexivity|].
    apply H. reflexivity.
Defined.

(** A stream of four records, two of them GPS containers. *)
Lemma extract_gps_blocks_yields_gps_containers_witness :
  extract_gps_blocks stream_4
  = ([ block_of payload_8 (ones 9);
       [ KLV "GPS9" (VArray2 payload_top_bit); KLV "STMP" (VInt 7) ] ],
     None).
Proof.
  apply (extract_gps_blocks_yields_gps_containers stream_4).
  intros s Hs Hk. unfold stream_4 in Hs.
  repeat match goal with
  | H : _ ∈ _ :: _ |- _ => apply elem_of_cons in H as [-> | H]
  | H : _ ∈ [] |- _ => apply elem_of_nil in H; destruct H
  end; try discriminate Hk; simpl; eauto.
Defined.

(** Three tables: the start time is that of the second, 500 microseconds
    before day 9000. *)
Lemma starttime_is_of_last_gated_table_witness :
  ∃ pre g post,
    tables_3 = pre ++ g :: post ∧
    passes_gate g ∧
    Forall misses_gate post ∧
    ∃ days seconds delta t0 micros delta',
      fst (timestamp g) !! 0%nat = Some days ∧
      snd (timestamp g) !! 0%nat = Some seconds ∧
      timedelta_days_seconds (PyRuntime := exact_runtime) days seconds
      = Ok delta ∧
      datetime_add (PyRuntime := exact_runtime) epoch delta = Ok t0 ∧
      int_of_value (PyRuntime := exact_runtime)
        (value (micros_after_start g)) = Ok micros ∧
      timedelta_microseconds (PyRuntime := exact_runtime) (micros * -1)
      = Ok delta' ∧
      datetime_add (PyRuntime := exact_runtime) t0 delta'
      = Ok 777599999999500%Q.
Proof.
  eapply (starttime_is_of_last_gated_table (RT := exact_runtime)
            tables_3 false true).
  vm_compute. reflexivity.
Defined.

(** With [first_only], one point per table. *)
Lemma points_are_the_samples_below_stop_witness :
  ∃ segment starttime runs,
    make_pgx_segment (RT := exact_runtime) tables_3 true false
    = Ok (segment, starttime) ∧
    segment = concat runs ∧
    Forall2 (λ g run, length run = 1%nat) tables_3 runs.
Proof.
  destruct (make_pgx_segment (RT := exact_runtime) tables_3 true false)
    as [[segment starttime]|e] eqn:E; [|discriminate E].
  destruct (points_are_the_samples_below_stop (RT := exact_runtime)
              tables_3 true false segment starttime E)
    as (runs & Hseg & Hruns).
  exists segment, starttime, runs. repeat split; [exact Hseg|].
  eapply Forall2_impl; [exact Hruns|]. intros g run [Hl _]. exact Hl.
Defined.


(** Two samples of one table: both points carry the speeds of sample 0. *)
Lemma extensions_are_the_speeds_of_sample_0_witness :
  ∃ segment starttime,
    make_pgx_segment (RT := exact_runtime) [ table_of 3 [3; 2] 0 ] false true
    = Ok (segment, starttime) ∧
    length segment = 2%nat ∧
    Forall (λ p,
      ∃ g i v2 v3,
        g ∈ [ table_of 3 [3; 2] 0 ] ∧ (i < stop_of false g)%nat ∧
        is_point_of_sample g i p ∧
        speed_2d g !! 0%nat = Some v2 ∧
        speed_3d g !! 0%nat = Some v3 ∧
        tp_extensions p
        = [ mkElement "speed_2d" None
              [ mkElement "value" (Some (render_g v2)) [];
                mkElement "unit" (Some "m/s") [] ];
            mkElement "speed_3d" None
              [ mkElement "value" (Some (render_g v3)) [];
                mkElement "unit" (Some "m/s") [] ] ]) segment.
Proof.
  destruct (make_pgx_segment (RT := exact_runtime)
              [ table_of 3 [3; 2] 0 ] false true)
    as [[segment starttime]|e] eqn:E; [|discriminate E].
  exists segment, starttime. split; [reflexivity|]. split.
  - vm_compute in E. injection E as <- _. reflexivity.
  - apply Forall_forall. intros p Hp.
    exact (extensions_are_the_speeds_of_sample_0 (RT := exact_runtime)
             [ table_of 3 [3; 2] 0 ] false segment starttime E p Hp).
Defined.

(** A table with a dilution of precision of 12, and no table at all. *)
Lemma no_gated_table_no_segment_witness :
  make_pgx_segment (RT := exact_runtime) tables_ungated false true
  = Raise (UnboundLocalError "starttime") ∧
  make_pgx_segment (RT := exact_runtime) [] false true
  = Raise (UnboundLocalError "starttime").
Proof.
  destruct (no_gated_table_no_segment (RT := exact_runtime)
              tables_ungated false true) as (_ & Hnone & Hempty).
  split; [|exact Hempty].
  destruct Hnone as [(segment & _ & H) | (e & Hloop & _)].
  - intros g Hg (p & Hp & Hlt).
    apply list_elem_of_singleton in Hg as ->.
    simpl in Hp. injection Hp as <-. discriminate Hlt.
  - exact H.
  - discriminate Hloop.
Defined.

(** * Further properties of the decoder *)

(** ** The dictionary of a block *)

Lemma foldl_insert_lookup (gps_block : list KLVItem)
    (d : gmap string KLVItem) (k : string) :
  foldl (λ d s, <[key s := s]> d) d gps_block !! k
  = match last (filter (λ s, key s = k) gps_block) with
    | Some s => Some s
    | None => d !! k
    end.
Proof.
  revert d. induction gps_block as [|s l IH]; intros d; [reflexivity|].
  simpl. rewrite IH. destruct (decide (key s = k)) as [Hk|Hk].
  - rewrite filter_cons_True by exact Hk. rewrite last_cons.
    destruct (last (filter _ l)); [reflexivity|].
    rewrite <- Hk. apply lookup_insert_eq.
  - rewrite filter_cons_False by exact Hk.
    destruct (last (filter _ l)); [reflexivity|].
    apply lookup_insert_ne. exact Hk.
Qed.

Lemma make_block_dict_lookup (gps_block : list KLVItem) (k : string) :
  make_block_dict gps_block !! k
  = last (filter (λ s, key s = k) gps_block).
Proof.
  unfold make_block_dict. rewrite foldl_insert_lookup.
  destruct (last _); [reflexivity | apply lookup_empty].
Qed.

(** The decoder reads the block through five lookups only. *)
Lemma parse_gps_block_ext (b b' : list KLVItem) :
  (∀ tag, tag ∈ required_tags →
     make_block_dict b !! tag = make_block_dict b' !! tag) →
  parse_gps_block b = parse_gps_block b'.
Proof.
  intros H. unfold parse_gps_block, getitem.
  rewrite !(H "GPS9"), !(H "SCAL"), !(H "STNM"), !(H "STMP"), !(H "UNIT");
    try reflexivity; unfold required_tags;
    repeat (first [apply list_elem_of_here | apply list_elem_of_further]).
Qed.

Lemma filter_key_absent (gps_block : list KLVItem) (k : string) :
  k ∉ key <$> gps_block → filter (λ x, key x = k) gps_block = [].
Proof.
  induction gps_block as [|a l IH]; intros Hk; [reflexivity|].
  rewrite fmap_cons in Hk. apply not_elem_of_cons in Hk as [Hka Hk].
  rewrite filter_cons_False by congruence. apply IH, Hk.
Qed.

Lemma filter_key_unique (gps_block : list KLVItem) (s : KLVItem) :
  NoDup (key <$> gps_block) → s ∈ gps_block →
  filter (λ x, key x = key s) gps_block = [s].
Proof.
  induction gps_block as [|a l IH]; intros Hnd Hs.
  - apply elem_of_nil in Hs. destruct Hs.
  - rewrite fmap_cons in Hnd. apply NoDup_cons in Hnd as [Ha Hnd].
    apply elem_of_cons in Hs as [->|Hs].
    + rewrite filter_cons_True by reflexivity. f_equal.
      apply filter_key_absent, Ha.
    + rewrite filter_cons_False; [apply IH; assumption|].
      intros Hk. apply Ha. rewrite Hk.
      apply list_elem_of_fmap. exists s. split; [reflexivity | exact Hs].
Qed.

Lemma make_block_dict_unique (gps_block : list KLVItem) (k : string)
    (s : KLVItem) :
  NoDup (key <$> gps_block) →
  make_block_dict gps_block !! k = Some s ↔ s ∈ gps_block ∧ key s = k.
Proof.
  intros Hnd. rewrite make_block_dict_lookup. split.
  - intros H. apply last_Some_elem_of, list_elem_of_filter in H. tauto.
  - intros [Hs <-]. rewrite filter_key_unique by assumption. reflexivity.
Qed.

(** X1: [block_dict[tag]] is the last record of the block that carries the
    tag, and raises [KeyError] when no record carries it. *)
Theorem getitem_is_last_record (gps_block : list KLVItem) (tag : string) :
  getitem (make_block_dict gps_block) tag
  = match last (filter (λ s, key s = tag) gps_block) with
    | Some s => Ok s
    | None => Raise (KeyError (KStr tag))
    end.
Proof.
  unfold getitem. rewrite make_block_dict_lookup. reflexivity.
Qed.

(** X2: when no two records of a block share a tag, the order of the
    records does not matter to the decoder. *)
Theorem parse_gps_block_order_irrelevant (b b' : list KLVItem) :
  NoDup (key <$> b) → b ≡ₚ b' →
  parse_gps_block b = parse_gps_block b'.
Proof.
  intros Hnd Hp. apply parse_gps_block_ext. intros tag _.
  assert (Hnd' : NoDup (key <$> b')) by (rewrite <- Hp; exact Hnd).
  apply option_eq. intros s.
  rewrite !make_block_dict_unique by assumption.
  rewrite Hp. reflexivity.
Qed.

(** X3: a record whose tag is none of GPS9, SCAL, STNM, STMP, UNIT has no
    effect on the decoder, wherever it stands in the block. *)
Theorem parse_gps_block_ignores_other_tags (b1 b2 : list KLVItem)
    (r : KLVItem) :
  key r ∉ required_tags →
  parse_gps_block (b1 ++ r :: b2) = parse_gps_block (b1 ++ b2).
Proof.
  intros Hr. apply parse_gps_block_ext. intros tag Htag.
  rewrite !make_block_dict_lookup, !filter_app.
  rewrite filter_cons_False; [reflexivity|].
  intros Hk. apply Hr. rewrite Hk. exact Htag.
Qed.

(** ** The shape of the payload *)

Lemma working_matrix_Ok (m wm : ndarray2 Z) :
  working_matrix m = Ok wm →
  ∃ j, ncols m = S j ∧ (6 ≤ j)%nat ∧
       wm = Array2 (S (S j)) (map (split_row j) (rows m)).
Proof.
  intros H. destruct (ncols m) as [|j] eqn:Hc.
  - unfold working_matrix, last_column in H. rewrite Hc in H. discriminate H.
  - destruct (decide (6 ≤ j)%nat) as [Hj|Hj].
    + rewrite (working_matrix_rows m j Hc) in H by lia.
      injection H as <-. eauto.
    + rewrite working_matrix_short in H by lia. discriminate H.
Qed.

Lemma divide_Ok_ncols (m : ndarray2 Z) (scal : Value) (r : ndarray2 npfloat) :
  divide m scal = Ok r → ncols m ≠ 1%nat → ncols r = ncols m.
Proof.
  unfold divide. intros H Hc. apply bind_Ok in H as (s & _ & H).
  destruct (broadcast_dim (length (rows m)) (length (rows s)));
    [|discriminate H].
  destruct (broadcast_dim (ncols m) (ncols s)) as [nc|] eqn:E;
    [|discriminate H].
  injection H as <-. simpl. unfold broadcast_dim in E.
  repeat match type of E with
  | (if ?c then _ else _) = _ => destruct c
  end; congruence.
Qed.

(** X4: the decoder returns a table only for a block whose GPS9 record is
    a two-dimensional array of exactly eight columns. *)
Theorem parse_gps_block_Ok_eight_columns (gps_block : list KLVItem)
    (t : GPSData) :
  parse_gps_block gps_block = Ok t →
  ∃ g m, make_block_dict gps_block !! "GPS9" = Some g ∧
         value g = VArray2 m ∧ ncols m = 8%nat.
Proof.
  unfold parse_gps_block. intros H. inv_ok H.
  destruct (decide (ncols a3 = 9%nat)) as [H9|_]; [|discriminate H].
  clear H. unfold getitem in Ha.
  destruct (make_block_dict gps_block !! "GPS9") as [g|] eqn:Eg;
    [|discriminate Ha].
  injection Ha as <-. exists g.
  destruct (value g) as [|[|]|m| |]; try discriminate Ha0.
  injection Ha0 as <-. exists m. split; [reflexivity|]. split; [reflexivity|].
  apply working_matrix_Ok in Ha1 as (j & Hc & Hj & ->).
  apply divide_Ok_ncols in Ha3; simpl in *; lia.
Qed.

(** X5: for a payload of eight columns, the working matrix has one row of
    nine entries per payload row; the first seven entries are those of
    the payload, and entries 7 and 8 are the two halves of payload entry
    7: the low half lies in 0..65535 and high * 65536 + low is the entry,
    whatever its sign. *)
Theorem working_matrix_splits_last_entry (m : ndarray2 Z) :
  rectangular m → ncols m = 8%nat →
  ∃ wm,
    working_matrix m = Ok wm ∧ ncols wm = 9%nat ∧
    length (rows wm) = length (rows m) ∧
    ∀ i r, rows m !! i = Some r →
      ∃ r', rows wm !! i = Some r' ∧ length r' = 9%nat ∧
            (∀ j, (j < 7)%nat → nth j r' 0 = nth j r 0) ∧
            nth 7 r' 0 * 65536 + nth 8 r' 0 = nth 7 r 0 ∧
            0 ≤ nth 8 r' 0 < 65536.
Proof.
  intros Hrect Hc. eexists. split.
  { apply (working_matrix_rows m 7); [exact Hc | lia]. }
  simpl. split; [reflexivity|]. split; [apply length_map|].
  intros i r Hr. exists (split_row 7 r).
  assert (Hlen : length r = 8%nat).
  { unfold rectangular in Hrect. rewrite Forall_lookup in Hrect.
    rewrite <- Hc. exact (Hrect i r Hr). }
  split; [rewrite list_lookup_fmap, Hr; reflexivity|].
  split; [rewrite split_row_length; lia|].
  split; [intros j Hj; apply split_row_other; assumption|].
  split; [apply split_row_recombine; exact Hlen|].
  rewrite split_row_low by exact Hlen. apply Z.mod_pos_bound. lia.
Qed.

(** ** Divisors *)

(** Division by one number: a scalar, or a vector of length 1. *)
Lemma divide_by_one_number (m : ndarray2 Z) (scal : Value) (z : Z) :
  as_divisor scal = Ok (Array2 1 [[z]]) → rectangular m →
  divide m scal
  = Ok (Array2 (ncols m) (map (map (λ x, true_divide x z)) (rows m))).
Proof.
  intros Hs Hm. unfold divide. rewrite Hs. simpl.
  rewrite !broadcast_dim_1_r. do 2 f_equal.
  apply list_eq. intros i. rewrite !list_lookup_fmap.
  destruct (rows m !! i) as [r|] eqn:E; simpl.
  - assert (Hi : (i < length (rows m))%nat) by (eapply lookup_lt_Some; exact E).
    rewrite lookup_seq_lt by exact Hi. simpl. f_equal.
    assert (Hr : length r = ncols m).
    { unfold rectangular in Hm. rewrite Forall_lookup in Hm. eapply Hm, E. }
    unfold entry. simpl. rewrite (broadcast_index_lt _ i) by exact Hi.
    erewrite (nth_lookup_Some (rows m)) by exact E.
    apply list_eq. intros j. rewrite !list_lookup_fmap.
    destruct (decide (j < ncols m)%nat) as [Hj|Hj].
    + rewrite lookup_seq_lt by exact Hj. simpl.
      rewrite (broadcast_index_lt _ j) by exact Hj.
      destruct (lookup_lt_is_Some_2 r j) as [x Hx]; [lia|].
      rewrite Hx. simpl. erewrite nth_lookup_Some by exact Hx. reflexivity.
    + rewrite lookup_seq_ge by lia. simpl.
      rewrite (lookup_ge_None_2 r) by lia. reflexivity.
  - rewrite lookup_seq_ge; [reflexivity|]. apply lookup_ge_None. exact E.
Qed.

Section PayloadOfEightColumns.
Variable gps_block : list KLVItem.
Variables gps9 scal stnm stmp unit_ : KLVItem.
Variable payload : ndarray2 Z.

Hypothesis has_gps9 : make_block_dict gps_block !! "GPS9" = Some gps9.
Hypothesis has_scal : make_block_dict gps_block !! "SCAL" = Some scal.
Hypothesis has_stnm : make_block_dict gps_block !! "STNM" = Some stnm.
Hypothesis has_stmp : make_block_dict gps_block !! "STMP" = Some stmp.
Hypothesis has_unit : make_block_dict gps_block !! "UNIT" = Some unit_.
Hypothesis gps9_value : value gps9 = VArray2 payload.
Hypothesis payload_rect : rectangular payload.
Hypothesis payload_cols : ncols payload = 8%nat.

(** X6: a packed entry that reads as negative gives a negative dilution
    of precision; when it is in the first row the table passes the gate
    [precision[0] < 10] of the assembler. *)
Theorem negative_packed_entry_passes_gate (divisors : list Z) (r : list Z) :
  value scal = VArray1 divisors → length divisors = 9%nat →
  rows payload !! 0%nat = Some r → nth 7 r 0 < 0 → 0 < nth 7 divisors 0 →
  ∃ t q, parse_gps_block gps_block = Ok t ∧
         precision t !! 0%nat = Some (Fin q) ∧ (q < 0)%Q ∧ passes_gate t.
Proof.
  intros Hv Hl Hr Hneg Hpos.
  rewrite (parse_gps_block_decodable gps_block gps9 scal stnm stmp unit_
             payload divisors) by assumption.
  assert (Hlen : length r = 8%nat).
  { unfold rectangular in payload_rect. rewrite Forall_lookup in payload_rect.
    rewrite <- payload_cols. exact (payload_rect _ _ Hr). }
  assert (Hhigh : nth 7 (split_row 7 r) 0 < 0).
  { rewrite split_row_high by exact Hlen.
    apply Z.div_lt_upper_bound; lia. }
  destruct (true_divide_negative _ _ Hhigh Hpos) as (q & Hdiv & Hq).
  assert (Hp : decoded_column (rows payload) divisors 7 !! 0%nat
               = Some (Fin q)).
  { unfold decoded_column. rewrite list_lookup_fmap, Hr. simpl. f_equal.
    exact Hdiv. }
  eexists _, q. split; [reflexivity|]. simpl.
  split; [exact Hp|].
  split; [exact Hq|].
  eexists. split; [exact Hp|]. apply lt_10_Fin.
  eapply Qlt_trans; [exact Hq | reflexivity].
Qed.

(** X7: a SCAL record that holds one number, as a scalar or as a vector of
    length 1, divides every column by that number. *)
Theorem one_divisor_scales_every_column (z : Z) :
  value scal = VInt z ∨ value scal = VArray1 [z] →
  ∃ t, parse_gps_block gps_block = Ok t ∧
       npoints t = length (rows payload) ∧
       ∀ j, (j < 9)%nat →
         table_column t j
         = map (λ r, true_divide (nth j (split_row 7 r) 0) z) (rows payload).
Proof.
  intros Hv. unfold parse_gps_block, getitem.
  rewrite has_gps9, has_scal, has_stnm, has_stmp, has_unit. simpl.
  rewrite gps9_value. simpl.
  rewrite (working_matrix_rows payload 7) by (rewrite ?payload_cols; lia).
  simpl.
  assert (Hrows : Forall (λ r, length r = 8%nat) (rows payload)).
  { unfold rectangular in payload_rect. rewrite payload_cols in payload_rect.
    exact payload_rect. }
  rewrite (divide_by_one_number _ _ z).
  - simpl. destruct (decide (9 = 9)%nat) as [_|Hn]; [|lia].
    eexists. split; [reflexivity|]. simpl.
    split; [rewrite !length_map; reflexivity|].
    intros j Hj.
    assert (Hcol : ∀ k, (k < 9)%nat →
              column NaN k
                (Array2 9 (map (map (λ x, true_divide x z))
                             (map (split_row 7) (rows payload))))
              = map (λ r, true_divide (nth k (split_row 7 r) 0) z)
                    (rows payload)).
    { intros k Hk. unfold column. simpl. rewrite !map_map.
      apply map_ext_Forall. eapply Forall_impl; [exact Hrows|].
      intros r Hr. simpl in Hr |- *.
      destruct (lookup_lt_is_Some_2 (split_row 7 r) k) as [x Hx].
      { rewrite split_row_length. lia. }
      erewrite (nth_lookup_Some (split_row 7 r)) by exact Hx.
      apply nth_lookup_Some. rewrite list_lookup_fmap, Hx. reflexivity. }
    do 9 (destruct j as [|j]; [apply Hcol; lia|]). lia.
  - destruct Hv as [-> | ->]; reflexivity.
  - unfold rectangular. simpl. rewrite Forall_fmap.
    eapply Forall_impl; [exact Hrows|]. intros r Hr. simpl in Hr |- *.
    rewrite split_row_length. lia.
Qed.

(** X8: a SCAL vector whose length is neither 9 nor 1 cannot be broadcast
    against the nine columns: the decoder raises [ValueError]. *)
Theorem wrong_number_of_divisors (divisors : list Z) :
  value scal = VArray1 divisors →
  length divisors ≠ 9%nat → length divisors ≠ 1%nat →
  parse_gps_block gps_block = Raise ValueError.
Proof.
  intros Hv H9 H1. unfold parse_gps_block, getitem.
  rewrite has_gps9, has_scal. simpl. rewrite gps9_value. simpl.
  rewrite (working_matrix_rows payload 7) by (rewrite ?payload_cols; lia).
  simpl. rewrite Hv. unfold divide. simpl.
  rewrite broadcast_dim_1_r. unfold broadcast_dim.
  destruct (decide (9%nat = length divisors)); [lia|].
  destruct (decide (9 = 1)%nat); [lia|].
  destruct (decide (length divisors = 1%nat)); [lia|]. reflexivity.
Qed.

End PayloadOfEightColumns.

(** X9: the fields of a decoded table, read from the payload. Sample [i]
    has the first seven entries of payload row [i], each divided by its
    divisor, as latitude, longitude, altitude, 2D and 3D speed, days and
    seconds; its dilution of precision is the high half of entry 7
    divided by divisor 7, and its fix code the low half divided by
    divisor 8. *)
Theorem decoded_fields_of_payload_row (gps_block : list KLVItem)
    (gps9 scal stnm stmp unit_ : KLVItem) (payload : ndarray2 Z)
    (divisors : list Z) :
  make_block_dict gps_block !! "GPS9" = Some gps9 →
  make_block_dict gps_block !! "SCAL" = Some scal →
  make_block_dict gps_block !! "STNM" = Some stnm →
  make_block_dict gps_block !! "STMP" = Some stmp →
  make_block_dict gps_block !! "UNIT" = Some unit_ →
  value gps9 = VArray2 payload → value scal = VArray1 divisors →
  rectangular payload → ncols payload = 8%nat → length divisors = 9%nat →
  ∃ t, parse_gps_block gps_block = Ok t ∧
    ∀ i r, rows payload !! i = Some r →
      (∀ j, (j < 7)%nat →
         table_column t j !! i
         = Some (true_divide (nth j r 0) (nth j divisors 0))) ∧
      precision t !! i
      = Some (true_divide (nth 7 r 0 `div` 65536) (nth 7 divisors 0)) ∧
      fix_ t !! i
      = Some (true_divide (nth 7 r 0 `mod` 65536) (nth 8 divisors 0)).
Proof.
  intros H9 Hs Hn Hm Hu Hv9 Hvs Hrect Hc Hl.
  rewrite (parse_gps_block_decodable gps_block gps9 scal stnm stmp unit_
             payload divisors) by assumption.
  eexists. split; [reflexivity|]. intros i r Hr.
  assert (Hlen : length r = 8%nat).
  { unfold rectangular in Hrect. rewrite Forall_lookup in Hrect.
    rewrite <- Hc. exact (Hrect i r Hr). }
  assert (Hcol : ∀ j, decoded_column (rows payload) divisors j !! i
                      = Some (true_divide (nth j (split_row 7 r) 0)
                                          (nth j divisors 0))).
  { intros j. unfold decoded_column. rewrite list_lookup_fmap, Hr.
    reflexivity. }
  split; [|split].
  - intros j Hj.
    assert (Htc : table_column
              {| description := value stnm;
                 timestamp := (decoded_column (rows payload) divisors 5,
                               decoded_column (rows payload) divisors 6);
                 micros_after_start := stmp;
                 precision := decoded_column (rows payload) divisors 7;
                 fix_ := decoded_column (rows payload) divisors 8;
                 latitude := decoded_column (rows payload) divisors 0;
                 longitude := decoded_column (rows payload) divisors 1;
                 altitude := decoded_column (rows payload) divisors 2;
                 speed_2d := decoded_column (rows payload) divisors 3;
                 speed_3d := decoded_column (rows payload) divisors 4;
                 units := value unit_;
                 npoints := length (rows payload) |} j
            = decoded_column (rows payload) divisors j).
    { do 7 (destruct j as [|j]; [reflexivity|]). lia. }
    rewrite Htc, Hcol, split_row_other by assumption. reflexivity.
  - simpl. rewrite Hcol, split_row_high by exact Hlen. reflexivity.
  - simpl. rewrite Hcol, split_row_low by exact Hlen. reflexivity.
Qed.

(** * Further properties of the extractor and of the assembler *)

(** Only a container has children. *)
Lemma iter_value_Ok (v : Value) (elts : list KLVItem) :
  iter_value v = Ok elts → v = VItems elts ∨ elts = [].
Proof.
  destruct v as [z|[|x l]|[c [|r l]]|[|a str]|items]; simpl; intros [= <-];
    auto.
Qed.

Lemma extract_from_yields (strms : list KLVItem) (block : list KLVItem) :
  block ∈ (extract_from strms).1 →
  ∃ s, s ∈ strms ∧ value s = VItems block ∧
       Exists (λ elt, key elt = "GPS9") block.
Proof.
  induction strms as [|s strms IH]; simpl.
  - intros H. apply elem_of_nil in H. destruct H.
  - destruct (iter_value (value s)) as [elts|e] eqn:Ei; simpl;
      [|intros H; apply elem_of_nil in H; destruct H].
    rewrite scan_children_spec. simpl.
    destruct (extract_from strms) as [blocks stop]. simpl in IH |- *.
    assert (Hrest : block ∈ blocks →
              ∃ s', s' ∈ s :: strms ∧ value s' = VItems block ∧
                    Exists (λ elt, key elt = "GPS9") block).
    { intros H. destruct (IH H) as (s' & Hs & Hv).
      exists s'. split; [apply list_elem_of_further, Hs | exact Hv]. }
    case_bool_decide as He; simpl; [|exact Hrest].
    intros H. apply elem_of_cons in H as [-> | H]; [|exact (Hrest H)].
    exists s. split; [apply list_elem_of_here|]. split; [|exact He].
    apply iter_value_Ok in Ei as [Hv | ->]; [exact Hv|].
    apply Exists_nil in He. destruct He.
Qed.

(** X10: every block the extractor yields, also before an exception, is
    the child list of a record tagged STRM of the stream, and the decoder
    finds its GPS9 record: the lookup yields the last child tagged
    GPS9. *)
Theorem yielded_block_has_gps9 (stream : list KLVItem)
    (block : list KLVItem) :
  block ∈ (extract_gps_blocks stream).1 →
  (∃ s, s ∈ stream ∧ key s = "STRM" ∧ value s = VItems block) ∧
  ∃ g, getitem (make_block_dict block) "GPS9" = Ok g ∧
       key g = "GPS9" ∧ g ∈ block.
Proof.
  unfold extract_gps_blocks, filter_klv. intros H.
  apply extract_from_yields in H as (s & Hs & Hv & He).
  apply list_elem_of_filter in Hs as [Hk Hs].
  split; [exists s; auto|].
  unfold getitem. rewrite make_block_dict_lookup.
  destruct (last (filter (λ x, key x = "GPS9") block)) as [g|] eqn:E.
  - exists g. split; [reflexivity|].
    apply last_Some_elem_of, list_elem_of_filter in E. exact E.
  - exfalso. apply last_None in E.
    apply Exists_exists in He as (elt & Helt & Hkey).
    assert (Hin : elt ∈ filter (λ x, key x = "GPS9") block)
      by (apply list_elem_of_filter; auto).
    rewrite E in Hin. apply elem_of_nil in Hin. exact Hin.
Qed.

Lemma FIX_TYPE_labels (c : npfloat) (label : string) :
  FIX_TYPE c = Ok label → label ∈ ["none"; "2d"; "3d"].
Proof.
  intros H. destruct c as [q| | | |]; try discriminate H; simpl in H;
  repeat match type of H with
  | (if ?b then _ else _) = _ => destruct b
  end; try discriminate H; injection H as <-;
    repeat (first [apply list_elem_of_here | apply list_elem_of_further]).
Qed.

Section MoreAssemblerProperties.
Context `{RT : PyRuntime}.

Lemma points_loop_acc (g : GPSData) (se : bool) (indices : list nat)
    (acc : GPXTrackSegment) :
  points_loop g se indices acc
  = ps ← points_loop g se indices []; Ok (acc ++ ps).
Proof.
  revert acc. induction indices as [|i indices IH]; intros acc; simpl.
  - rewrite app_nil_r. reflexivity.
  - destruct (make_point g se i) as [p|e]; simpl; [|reflexivity].
    rewrite (IH (acc ++ [p])), (IH [p]).
    destruct (points_loop g se indices []) as [ps|e]; simpl; [|reflexivity].
    rewrite <- app_assoc. reflexivity.
Qed.

Lemma blocks_loop_acc (bs : list GPSData) (fo se : bool)
    (acc : GPXTrackSegment) (st : option datetime) :
  blocks_loop bs fo se acc st
  = r ← blocks_loop bs fo se [] st; Ok (acc ++ r.1, r.2).
Proof.
  revert acc st. induction bs as [|g bs IH]; intros acc st; simpl.
  - rewrite app_nil_r. reflexivity.
  - destruct (precision_gate g) as [b|e]; simpl; [|reflexivity].
    destruct (if b then _ else _) as [st1|e]; simpl; [|reflexivity].
    rewrite (points_loop_acc g se _ acc).
    destruct (points_loop g se (seq 0 (stop_of fo g)) []) as [ps|e]; simpl;
      [|reflexivity].
    rewrite (IH (acc ++ ps)), (IH ps).
    destruct (blocks_loop bs fo se [] st1) as [[s r]|e]; simpl; [|reflexivity].
    rewrite <- app_assoc. reflexivity.
Qed.

Lemma blocks_loop_app (bs1 bs2 : list GPSData) (fo se : bool)
    (acc : GPXTrackSegment) (st : option datetime) :
  blocks_loop (bs1 ++ bs2) fo se acc st
  = r ← blocks_loop bs1 fo se acc st; blocks_loop bs2 fo se r.1 r.2.
Proof.
  revert acc st. induction bs1 as [|g bs1 IH]; intros acc st; simpl.
  - reflexivity.
  - destruct (precision_gate g) as [b|e]; simpl; [|reflexivity].
    destruct (if b then _ else _) as [st1|e]; simpl; [|reflexivity].
    destruct (points_loop g se (seq 0 (stop_of fo g)) acc) as [ps|e]; simpl;
      [|reflexivity].
    apply IH.
Qed.

(** The value of [starttime] before the loop only matters when no table
    assigns it. *)
Lemma blocks_loop_initial_starttime (bs : list GPSData) (fo se : bool)
    (acc : GPXTrackSegment) (st : option datetime) :
  blocks_loop bs fo se acc st
  = r ← blocks_loop bs fo se acc None;
    Ok (r.1, match r.2 with Some t => Some t | None => st end).
Proof.
  revert acc st. induction bs as [|g bs IH]; intros acc st; simpl.
  - reflexivity.
  - destruct (precision_gate g) as [[|]|e]; simpl; [| |reflexivity].
    + destruct (start_time_of g) as [t|e]; simpl; [|reflexivity].
      destruct (points_loop g se (seq 0 (stop_of fo g)) acc) as [ps|e];
        simpl; [|reflexivity].
      rewrite (IH ps (Some t)).
      destruct (blocks_loop bs fo se ps None) as [[s [t'|]]|e]; reflexivity.
    + destruct (points_loop g se (seq 0 (stop_of fo g)) acc) as [ps|e];
        simpl; [|reflexivity].
      apply IH.
Qed.

(** The variable [starttime] does not depend on the two flags, nor on the
    points collected so far. *)
Lemma blocks_loop_starttime_flags (bs : list GPSData) (fo se fo' se' : bool)
    (acc acc' s s' : GPXTrackSegment) (st r r' : option datetime) :
  blocks_loop bs fo se acc st = Ok (s, r) →
  blocks_loop bs fo' se' acc' st = Ok (s', r') →
  r = r'.
Proof.
  revert acc acc' st. induction bs as [|g bs IH]; intros acc acc' st; simpl.
  - intros [= _ <-] [= _ <-]. reflexivity.
  - intros H H'. inv_ok H. inv_ok H'.
    rewrite Ha in Ha2. injection Ha2 as <-.
    rewrite Ha0 in Ha3. injection Ha3 as <-.
    exact (IH _ _ _ H H').
Qed.

Lemma blocks_loop_gates (bs : list GPSData) (fo se : bool)
    (acc s : GPXTrackSegment) (st r : option datetime) :
  blocks_loop bs fo se acc st = Ok (s, r) →
  Forall (λ g, is_Some (precision g !! 0%nat)) bs.
Proof.
  revert acc st. induction bs as [|g bs IH]; intros acc st; simpl.
  - constructor.
  - intros H. inv_ok H. constructor; [|exact (IH _ _ H)].
    unfold precision_gate in Ha. apply bind_Ok in Ha as (p & Hp & _).
    apply index_Ok in Hp. eauto.
Qed.

(** X11: the start time does not depend on the flags [first_only] and
    [speeds_as_extensions]: two runs over the same tables that both
    return, return the same start time. *)
Theorem starttime_does_not_depend_on_flags (gps_blocks : list GPSData)
    (fo se fo' se' : bool) (s s' : GPXTrackSegment) (t t' : datetime) :
  make_pgx_segment gps_blocks fo se = Ok (s, t) →
  make_pgx_segment gps_blocks fo' se' = Ok (s', t') →
  t = t'.
Proof.
  intros H H'. apply make_pgx_segment_Ok in H, H'.
  pose proof (blocks_loop_starttime_flags _ _ _ _ _ _ _ _ _ _ _ _ H H') as E.
  congruence.
Qed.

(** X12: running the assembler over two lists of tables, one after the
    other. When both runs return, the run over the concatenation returns
    the points of the first followed by those of the second, with the
    start time of the second. When the second list has no table that
    passes the gate but its loop completes, the start time is that of
    the first. *)
Theorem make_pgx_segment_app (bs1 bs2 : list GPSData) (fo se : bool)
    (s1 s2 : GPXTrackSegment) (t1 : datetime) :
  make_pgx_segment bs1 fo se = Ok (s1, t1) →
  (∀ t2, make_pgx_segment bs2 fo se = Ok (s2, t2) →
         make_pgx_segment (bs1 ++ bs2) fo se = Ok (s1 ++ s2, t2)) ∧
  (blocks_loop bs2 fo se [] None = Ok (s2, None) →
   make_pgx_segment (bs1 ++ bs2) fo se = Ok (s1 ++ s2, t1)).
Proof.
  intros H1. apply make_pgx_segment_Ok in H1.
  assert (Happ : ∀ r2, blocks_loop bs2 fo se [] None = Ok (s2, r2) →
            blocks_loop (bs1 ++ bs2) fo se [] None
            = Ok (s1 ++ s2, match r2 with Some t => Some t | None => Some t1 end)).
  { intros r2 H2. rewrite blocks_loop_app, H1. simpl.
    rewrite blocks_loop_acc, blocks_loop_initial_starttime, H2.
    reflexivity. }
  split.
  - intros t2 H2. apply make_pgx_segment_Ok in H2.
    apply make_pgx_segment_Ok. exact (Happ _ H2).
  - intros H2. apply make_pgx_segment_Ok. exact (Happ _ H2).
Qed.

(** X13: the number of points of a returned segment is the sum of the
    values of [stop] over the tables: the number of tables with
    [first_only], and the sum of their [npoints] otherwise. *)
Theorem number_of_points (gps_blocks : list GPSData) (fo se : bool)
    (s : GPXTrackSegment) (t : datetime) :
  make_pgx_segment gps_blocks fo se = Ok (s, t) →
  length s = sum_list (stop_of fo <$> gps_blocks) ∧
  (fo = true → length s = length gps_blocks) ∧
  (fo = false → length s = sum_list (npoints <$> gps_blocks)).
Proof.
  intros H. apply make_pgx_segment_Ok, blocks_loop_points in H.
  destruct H as (runs & Hruns & ->). simpl.
  assert (Hlen : length (concat runs) = sum_list (stop_of fo <$> gps_blocks)).
  { induction Hruns as [|g run bs runs Hrun _ IH]; [reflexivity|].
    simpl. rewrite length_app, IH. f_equal.
    apply Forall2_length in Hrun. rewrite length_seq in Hrun. lia. }
  split; [exact Hlen|]. rewrite Hlen. split; intros ->.
  - clear. induction gps_blocks as [|g bs IH]; [reflexivity|].
    simpl in IH |- *. f_equal. exact IH.
  - reflexivity.
Qed.

(** X14: a table without samples stops the assembler, whatever the flags
    and also when [npoints] is 0: the gate reads [precision[0]]. The run
    raises [IndexError] when the table is the first one. *)
Theorem table_without_samples_stops_the_run (pre post : list GPSData)
    (g : GPSData) (fo se : bool) :
  precision g = [] →
  (∃ e, make_pgx_segment (pre ++ g :: post) fo se = Raise e) ∧
  make_pgx_segment (g :: post) fo se = Raise IndexError.
Proof.
  intros Hg. split.
  - destruct (make_pgx_segment (pre ++ g :: post) fo se) as [[s t]|e] eqn:E;
      [exfalso | eauto].
    apply make_pgx_segment_Ok, blocks_loop_gates in E.
    apply Forall_app in E as [_ E]. apply Forall_cons in E as [[p Hp] _].
    rewrite Hg in Hp. discriminate Hp.
  - unfold make_pgx_segment. simpl. unfold precision_gate, index.
    rewrite Hg. reflexivity.
Qed.

Lemma make_point_without_extensions (g : GPSData) (i : nat)
    (p : GPXTrackPoint) :
  make_point g true i = Ok p →
  make_point g false i = Ok (without_extensions p).
Proof.
  unfold make_point. intros H. inv_ok H. injection H as <-.
  rewrite Ha, Ha0, Ha1, Ha2, Ha3, Ha4, Ha5. simpl. rewrite Ha6. reflexivity.
Qed.

Lemma points_loop_without_extensions (g : GPSData) (indices : list nat)
    (acc s : GPXTrackSegment) :
  points_loop g true indices acc = Ok s →
  points_loop g false indices (without_extensions <$> acc)
  = Ok (without_extensions <$> s).
Proof.
  revert acc. induction indices as [|i indices IH]; intros acc; simpl.
  - intros [= <-]. reflexivity.
  - intros H. apply bind_Ok in H as (p & Hp & H).
    rewrite (make_point_without_extensions _ _ _ Hp). simpl.
    apply IH in H. rewrite fmap_app in H. exact H.
Qed.

Lemma blocks_loop_without_extensions (bs : list GPSData) (fo : bool)
    (acc s : GPXTrackSegment) (st r : option datetime) :
  blocks_loop bs fo true acc st = Ok (s, r) →
  blocks_loop bs fo false (without_extensions <$> acc) st
  = Ok (without_extensions <$> s, r).
Proof.
  revert acc st. induction bs as [|g bs IH]; intros acc st; simpl.
  - intros [= <- <-]. reflexivity.
  - intros H. inv_ok H. rewrite Ha. simpl. rewrite Ha0. simpl.
    rewrite (points_loop_without_extensions _ _ _ _ Ha1). simpl.
    exact (IH _ _ H).
Qed.

(** X15: the flag [speeds_as_extensions] only decides the extensions.
    When the run with the extensions returns, the run without them
    returns too, with the same start time and the same points, their
    extensions removed. *)
Theorem speeds_as_extensions_only_adds_extensions (gps_blocks : list GPSData)
    (fo : bool) (s : GPXTrackSegment) (t : datetime) :
  make_pgx_segment gps_blocks fo true = Ok (s, t) →
  make_pgx_segment gps_blocks fo false = Ok (without_extensions <$> s, t).
Proof.
  intros H. apply make_pgx_segment_Ok in H. apply make_pgx_segment_Ok.
  exact (blocks_loop_without_extensions _ _ _ _ _ _ H).
Qed.

Lemma blocks_loop_first_only (bs : list GPSData) (se : bool)
    (acc acc' s : GPXTrackSegment) (st r : option datetime) :
  Forall (λ g, (1 ≤ npoints g)%nat) bs →
  blocks_loop bs false se acc st = Ok (s, r) →
  ∃ runs,
    s = acc ++ concat runs ∧
    Forall2 (λ g run, length run = npoints g) bs runs ∧
    blocks_loop bs true se acc' st = Ok (acc' ++ concat (take 1 <$> runs), r).
Proof.
  intros Hn. revert acc acc' st.
  induction Hn as [|g bs Hg _ IH]; intros acc acc' st; simpl.
  - intros [= <- <-]. exists []. rewrite !app_nil_r.
    split; [reflexivity|]. split; [constructor | reflexivity].
  - intros H. inv_ok H. rewrite Ha. simpl. rewrite Ha0. simpl.
    apply points_loop_Ok in Ha1 as (ps & Hps & ->).
    destruct (npoints g) as [|n] eqn:En; [lia|]. simpl in Hps.
    apply Forall2_cons_inv_l in Hps as (p0 & ps' & Hp0 & Hps' & ->).
    rewrite Hp0. simpl.
    destruct (IH _ (acc' ++ [p0]) _ H) as (runs & -> & Hruns & Htrue).
    exists ((p0 :: ps') :: runs). split; [|split].
    + simpl. rewrite <- !app_assoc. reflexivity.
    + constructor; [|exact Hruns]. simpl. f_equal.
      apply Forall2_length in Hps'. rewrite length_seq in Hps'. lia.
    + rewrite Htrue. simpl. rewrite <- !app_assoc. reflexivity.
Qed.

(** X16: [first_only] keeps the first point of every table. When every
    table has at least one sample and the run over all samples returns,
    the run with [first_only] returns the first point of each table, in
    the order of the tables, and the same start time. *)
Theorem first_only_keeps_first_points (gps_blocks : list GPSData) (se : bool)
    (s : GPXTrackSegment) (t : datetime) :
  Forall (λ g, (1 ≤ npoints g)%nat) gps_blocks →
  make_pgx_segment gps_blocks false se = Ok (s, t) →
  ∃ runs,
    s = concat runs ∧
    Forall2 (λ g run, length run = npoints g) gps_blocks runs ∧
    make_pgx_segment gps_blocks true se = Ok (concat (take 1 <$> runs), t).
Proof.
  intros Hn H. apply make_pgx_segment_Ok in H.
  destruct (blocks_loop_first_only _ _ _ [] _ _ _ Hn H)
    as (runs & Hs & Hruns & Htrue).
  exists runs. split; [exact Hs|]. split; [exact Hruns|].
  apply make_pgx_segment_Ok. exact Htrue.
Qed.

(** X17: every point of a returned segment has the symbol Square and one
    of the three labels of [FIX_TYPE], and without
    [speeds_as_extensions] it has no extension. *)
Theorem points_have_symbol_and_label (gps_blocks : list GPSData)
    (fo se : bool) (s : GPXTrackSegment) (t : datetime) :
  make_pgx_segment gps_blocks fo se = Ok (s, t) →
  Forall (λ p, tp_symbol p = "Square" ∧
               tp_type_of_gpx_fix p ∈ ["none"; "2d"; "3d"] ∧
               (se = false → tp_extensions p = [])) s.
Proof.
  intros H. apply make_pgx_segment_Ok, blocks_loop_points in H.
  destruct H as (runs & Hruns & ->). simpl.
  induction Hruns as [|g run bs runs Hrun _ IH]; [constructor|].
  simpl. apply Forall_app. split; [|exact IH].
  clear IH. induction Hrun as [|i p idx ps Hp _ IHp]; [constructor|].
  constructor; [|exact IHp].
  apply make_point_Ok in Hp as ((_ & _ & _ & _ & _ & _ & c & _ & Hc)
                                & Hsym & Hext).
  split; [exact Hsym|]. split; [exact (FIX_TYPE_labels _ _ Hc)|].
  intros ->. injection Hext as <-. reflexivity.
Qed.

End MoreAssemblerProperties.

(** * The decoder and the assembler together *)

(** X18: in a table returned by the decoder, whatever the shape of the
    SCAL record, each of the nine sequences has a value at index [i]
    exactly when [i] is below [npoints]. *)
Theorem decoded_table_is_indexable (gps_block : list KLVItem) (t : GPSData) :
  parse_gps_block gps_block = Ok t →
  ∀ i j, is_Some (table_column t j !! i) ↔ (i < npoints t)%nat.
Proof.
  intros H i j. rewrite lookup_lt_is_Some.
  rewrite (parse_gps_block_lengths _ _ H j). reflexivity.
Qed.

Lemma true_divide_0_unknown (x : Z) : ¬ known_fix (true_divide x 0).
Proof.
  unfold true_divide. destruct (decide (0 = 0)) as [_|H]; [|lia].
  intros [Hq | (q & Hq & _)];
  repeat match type of Hq with
  | (if ?c then _ else _) = _ => destruct c
  end; discriminate Hq.
Qed.

Section DecodedTables.
Context `{RT : PyRuntime}.
Variable gps_block : list KLVItem.
Variables gps9 scal stnm stmp unit_ : KLVItem.
Variable payload : ndarray2 Z.
Variable divisors : list Z.

Hypothesis has_gps9 : make_block_dict gps_block !! "GPS9" = Some gps9.
Hypothesis has_scal : make_block_dict gps_block !! "SCAL" = Some scal.
Hypothesis has_stnm : make_block_dict gps_block !! "STNM" = Some stnm.
Hypothesis has_stmp : make_block_dict gps_block !! "STMP" = Some stmp.
Hypothesis has_unit : make_block_dict gps_block !! "UNIT" = Some unit_.
Hypothesis gps9_value : value gps9 = VArray2 payload.
Hypothesis scal_value : value scal = VArray1 divisors.
Hypothesis payload_rect : rectangular payload.
Hypothesis payload_cols : ncols payload = 8%nat.
Hypothesis divisors_length : length divisors = 9%nat.

(** X19: a payload without rows is decoded, to a table without samples,
    and that table stops the assembler: [IndexError] when it comes
    first. *)
Theorem payload_without_rows (pre post : list GPSData) (fo se : bool) :
  rows payload = [] →
  ∃ t, parse_gps_block gps_block = Ok t ∧ npoints t = 0%nat ∧
       (∃ e, make_pgx_segment (pre ++ t :: post) fo se = Raise e) ∧
       make_pgx_segment (t :: post) fo se = Raise IndexError.
Proof.
  intros Hrows.
  rewrite (parse_gps_block_decodable gps_block gps9 scal stnm stmp unit_
             payload divisors) by assumption.
  eexists. split; [reflexivity|]. rewrite Hrows. simpl.
  split; [reflexivity|]. split.
  - destruct (make_pgx_segment _ fo se) as [[s t]|e] eqn:E;
      [exfalso | eauto].
    apply make_pgx_segment_Ok, blocks_loop_gates in E.
    apply Forall_app in E as [_ E]. apply Forall_cons in E as [[p Hp] _].
    discriminate Hp.
  - reflexivity.
Qed.

(** X20: a zero divisor raises nothing in the decoder. With a zero as the
    divisor of the fix code, every fix code of the decoded table is [inf]
    or [nan], which [FIX_TYPE] does not know; when the payload has a row,
    no run of the assembler over tables that include this one returns. *)
Theorem zero_fix_divisor (bs : list GPSData) (fo se : bool) :
  nth 8 divisors 0 = 0 → rows payload ≠ [] →
  ∃ t, parse_gps_block gps_block = Ok t ∧
       Forall (λ c, ¬ known_fix c) (fix_ t) ∧
       (t ∈ bs → ∃ e, make_pgx_segment bs fo se = Raise e).
Proof.
  intros Hz Hrows.
  rewrite (parse_gps_block_decodable gps_block gps9 scal stnm stmp unit_
             payload divisors) by assumption.
  eexists. split; [reflexivity|]. simpl.
  assert (Hfix : Forall (λ c, ¬ known_fix c)
                   (decoded_column (rows payload) divisors 8)).
  { unfold decoded_column. rewrite Forall_fmap. apply Forall_true.
    intros r. simpl. rewrite Hz. apply true_divide_0_unknown. }
  split; [exact Hfix|]. intros Hin.
  destruct (make_pgx_segment bs fo se) as [[s t]|e] eqn:E; [exfalso | eauto].
  apply make_pgx_segment_Ok, blocks_loop_points in E.
  destruct E as (runs & Hruns & _).
  apply list_elem_of_lookup in Hin as [n Hn].
  destruct (Forall2_lookup_l _ _ _ _ _ Hruns Hn) as (run & _ & Hrun).
  simpl in Hrun.
  assert (Hstop : (0 < stop_of fo
             {| description := value stnm;
                timestamp := (decoded_column (rows payload) divisors 5,
                              decoded_column (rows payload) divisors 6);
                micros_after_start := stmp;
                precision := decoded_column (rows payload) divisors 7;
                fix_ := decoded_column (rows payload) divisors 8;
                latitude := decoded_column (rows payload) divisors 0;
                longitude := decoded_column (rows payload) divisors 1;
                altitude := decoded_column (rows payload) divisors 2;
                speed_2d := decoded_column (rows payload) divisors 3;
                speed_3d := decoded_column (rows payload) divisors 4;
                units := value unit_;
                npoints := length (rows payload) |})%nat).
  { unfold stop_of. destruct fo; simpl; [lia|].
    destruct (rows payload); [congruence | simpl; lia]. }
  pose proof (lookup_seq_lt 0 _ _ Hstop) as Hseq.
  destruct (Forall2_lookup_l _ _ _ _ _ Hrun Hseq) as (p & _ & Hmk).
  apply make_point_Ok in Hmk as [(_ & _ & _ & _ & _ & _ & c & Hc & Hl) _].
  simpl in Hc. rewrite Forall_lookup in Hfix.
  apply FIX_TYPE_Ok in Hl. exact (Hfix _ _ Hc Hl).
Qed.

End DecodedTables.

(** * The further properties at work on the examples *)

(** The block of five records, read backwards. *)
Lemma parse_gps_block_order_irrelevant_witness :
  parse_gps_block (block_of payload_8 camera_divisors)
  = parse_gps_block (reverse (block_of payload_8 camera_divisors)).
Proof.
  apply parse_gps_block_order_irrelevant.
  - apply (bool_decide_unpack _). vm_compute. reflexivity.
  - symmetry. apply reverse_Permutation.
Defined.

(** A TSMP record in the middle of the block. *)
Lemma parse_gps_block_ignores_other_tags_witness :
  parse_gps_block
    ([ KLV "STMP" (VInt 1500); KLV "STNM" (VStr "GPS") ]
     ++ KLV "TSMP" (VInt 36)
     :: [ KLV "UNIT" (VStr "degmmm/sm/s"); KLV "SCAL" (VArray1 (ones 9));
          KLV "GPS9" (VArray2 payload_8) ])
  = parse_gps_block
      ([ KLV "STMP" (VInt 1500); KLV "STNM" (VStr "GPS") ]
       ++ [ KLV "UNIT" (VStr "degmmm/sm/s"); KLV "SCAL" (VArray1 (ones 9));
            KLV "GPS9" (VArray2 payload_8) ]).
Proof.
  apply parse_gps_block_ignores_other_tags.
  apply (bool_decide_unpack _). vm_compute. reflexivity.
Defined.

(** The block that decodes has a payload of eight columns. *)
Lemma parse_gps_block_Ok_eight_columns_witness :
  ∃ g m, make_block_dict (block_of payload_8 camera_divisors) !! "GPS9"
         = Some g ∧
         value g = VArray2 m ∧ ncols m = 8%nat.
Proof.
  eapply (parse_gps_block_Ok_eight_columns
            (block_of payload_8 camera_divisors)).
  vm_compute. reflexivity.
Defined.

(** The packed entry with its top bit set. *)
Lemma working_matrix_splits_last_entry_witness :
  ∃ wm,
    working_matrix payload_top_bit = Ok wm ∧ ncols wm = 9%nat ∧
    length (rows wm) = length (rows payload_top_bit) ∧
    ∀ i r, rows payload_top_bit !! i = Some r →
      ∃ r', rows wm !! i = Some r' ∧ length r' = 9%nat ∧
            (∀ j, (j < 7)%nat → nth j r' 0 = nth j r 0) ∧
            nth 7 r' 0 * 65536 + nth 8 r' 0 = nth 7 r 0 ∧
            0 ≤ nth 8 r' 0 < 65536.
Proof.
  apply (working_matrix_splits_last_entry payload_top_bit);
    [repeat constructor | reflexivity].
Defined.

(** The table of the payload with its top bit set passes the gate. *)
Lemma negative_packed_entry_passes_gate_witness :
  ∃ t q, parse_gps_block (block_of payload_top_bit camera_divisors) = Ok t ∧
         precision t !! 0%nat = Some (Fin q) ∧ (q < 0)%Q ∧ passes_gate t.
Proof.
  eapply (negative_packed_entry_passes_gate
            (block_of payload_top_bit camera_divisors)); try reflexivity.
  repeat constructor.
Defined.

(** The number 2 as the SCAL record. *)
Lemma one_divisor_scales_every_column_witness :
  ∃ t, parse_gps_block (block_with_scal payload_8 (VInt 2)) = Ok t ∧
       npoints t = length (rows payload_8) ∧
       ∀ j, (j < 9)%nat →
         table_column t j
         = map (λ r, true_divide (nth j (split_row 7 r) 0) 2) (rows payload_8).
Proof.
  eapply (one_divisor_scales_every_column
            (block_with_scal payload_8 (VInt 2))); try reflexivity.
  - repeat constructor.
  - left. reflexivity.
Defined.

(** Eight divisors for nine columns. *)
Lemma wrong_number_of_divisors_witness :
  parse_gps_block (block_with_scal payload_8 (VArray1 (ones 8)))
  = Raise ValueError.
Proof.
  eapply (wrong_number_of_divisors
            (block_with_scal payload_8 (VArray1 (ones 8))));
    try reflexivity; simpl; lia.
Defined.

(** The fields of the two samples, with the divisors of a camera. *)
Lemma decoded_fields_of_payload_row_witness :
  ∃ t, parse_gps_block (block_of payload_8 camera_divisors) = Ok t ∧
    ∀ i r, rows payload_8 !! i = Some r →
      (∀ j, (j < 7)%nat →
         table_column t j !! i
         = Some (true_divide (nth j r 0) (nth j camera_divisors 0))) ∧
      precision t !! i
      = Some (true_divide (nth 7 r 0 `div` 65536) (nth 7 camera_divisors 0)) ∧
      fix_ t !! i
      = Some (true_divide (nth 7 r 0 `mod` 65536) (nth 8 camera_divisors 0)).
Proof.
  eapply (decoded_fields_of_payload_row
            (block_of payload_8 camera_divisors)); try reflexivity.
  repeat constructor.
Defined.

(** The block that follows a record tagged STRM with an empty array. *)
Lemma yielded_block_has_gps9_witness :
  extract_gps_blocks stream_empty_array
  = ([block_of payload_8 (ones 9)], None) ∧
  (∃ s, s ∈ stream_empty_array ∧ key s = "STRM" ∧
        value s = VItems (block_of payload_8 (ones 9))) ∧
  ∃ g, getitem (make_block_dict (block_of payload_8 (ones 9))) "GPS9" = Ok g ∧
       key g = "GPS9" ∧ g ∈ block_of payload_8 (ones 9).
Proof.
  split; [reflexivity|].
  apply (yielded_block_has_gps9 stream_empty_array
           (block_of payload_8 (ones 9))).
  apply list_elem_of_here.
Defined.

(** The three tables, with all samples and extensions, and with the
    first samples only. *)
Lemma starttime_does_not_depend_on_flags_witness :
  ∃ s s' t t',
    make_pgx_segment (RT := exact_runtime) tables_3 false true = Ok (s, t) ∧
    make_pgx_segment (RT := exact_runtime) tables_3 true false = Ok (s', t') ∧
    t = t'.
Proof.
  destruct (make_pgx_segment (RT := exact_runtime) tables_3 false true)
    as [[s t]|e] eqn:E; [|discriminate E].
  destruct (make_pgx_segment (RT := exact_runtime) tables_3 true false)
    as [[s' t']|e] eqn:E'; [|discriminate E'].
  exists s, s', t, t'. split; [reflexivity|]. split; [reflexivity|].
  exact (starttime_does_not_depend_on_flags (RT := exact_runtime)
           tables_3 false true true false s s' t t' E E').
Defined.

(** The three tables followed by a table that does not pass the gate. *)
Lemma make_pgx_segment_app_witness :
  ∃ s1 s2 t1,
    make_pgx_segment (RT := exact_runtime) tables_3 false true = Ok (s1, t1) ∧
    make_pgx_segment (RT := exact_runtime) (tables_3 ++ tables_ungated)
      false true
    = Ok (s1 ++ s2, t1) ∧
    length s2 = 1%nat.
Proof.
  destruct (make_pgx_segment (RT := exact_runtime) tables_3 false true)
    as [[s1 t1]|e] eqn:E; [|discriminate E].
  destruct (blocks_loop (RT := exact_runtime) tables_ungated false true [] None)
    as [[s2 [t2|]]|e] eqn:E2; try discriminate E2.
  exists s1, s2, t1. split; [reflexivity|]. split.
  - exact (proj2 (make_pgx_segment_app (RT := exact_runtime)
                    tables_3 tables_ungated false true s1 s2 t1 E) E2).
  - vm_compute in E2. injection E2 as <-. reflexivity.
Defined.

(** Six points without [first_only], three with it. *)
Lemma number_of_points_witness :
  ∃ s t, make_pgx_segment (RT := exact_runtime) tables_3 false true
         = Ok (s, t) ∧
         length s = 6%nat.
Proof.
  destruct (make_pgx_segment (RT := exact_runtime) tables_3 false true)
    as [[s t]|e] eqn:E; [|discriminate E].
  exists s, t. split; [reflexivity|].
  exact (proj1 (number_of_points (RT := exact_runtime)
                  tables_3 false true s t E)).
Defined.

(** A table without samples after the three tables, and alone. *)
Lemma table_without_samples_stops_the_run_witness :
  (∃ e, make_pgx_segment (RT := exact_runtime)
          (tables_3 ++ table_empty :: []) false true = Raise e) ∧
  make_pgx_segment (RT := exact_runtime) (table_empty :: []) false true
  = Raise IndexError.
Proof.
  apply (table_without_samples_stops_the_run (RT := exact_runtime)
           tables_3 [] table_empty false true).
  reflexivity.
Defined.

(** The three tables with and without the extensions. *)
Lemma speeds_as_extensions_only_adds_extensions_witness :
  ∃ s t,
    make_pgx_segment (RT := exact_runtime) tables_3 false true = Ok (s, t) ∧
    make_pgx_segment (RT := exact_runtime) tables_3 false false
    = Ok (without_extensions <$> s, t).
Proof.
  destruct (make_pgx_segment (RT := exact_runtime) tables_3 false true)
    as [[s t]|e] eqn:E; [|discriminate E].
  exists s, t. split; [reflexivity|].
  exact (speeds_as_extensions_only_adds_extensions (RT := exact_runtime)
           tables_3 false s t E).
Defined.

(** The first points of the three tables. *)
Lemma first_only_keeps_first_points_witness :
  ∃ s t runs,
    make_pgx_segment (RT := exact_runtime) tables_3 false true = Ok (s, t) ∧
    s = concat runs ∧
    Forall2 (λ g run, length run = npoints g) tables_3 runs ∧
    make_pgx_segment (RT := exact_runtime) tables_3 true true
    = Ok (concat (take 1 <$> runs), t).
Proof.
  destruct (make_pgx_segment (RT := exact_runtime) tables_3 false true)
    as [[s t]|e] eqn:E; [|discriminate E].
  assert (Hn : Forall (λ g, (1 ≤ npoints g)%nat) tables_3)
    by (repeat constructor).
  destruct (first_only_keeps_first_points (RT := exact_runtime)
              tables_3 true s t Hn E) as (runs & Hs & Hruns & Htrue).
  exists s, t, runs. split; [reflexivity|]. auto.
Defined.

(** The points of the three tables. *)
Lemma points_have_symbol_and_label_witness :
  ∃ s t,
    make_pgx_segment (RT := exact_runtime) tables_3 false false = Ok (s, t) ∧
    Forall (λ p, tp_symbol p = "Square" ∧
                 tp_type_of_gpx_fix p ∈ ["none"; "2d"; "3d"] ∧
                 (false = false → tp_extensions p = [])) s.
Proof.
  destruct (make_pgx_segment (RT := exact_runtime) tables_3 false false)
    as [[s t]|e] eqn:E; [|discriminate E].
  exists s, t. split; [reflexivity|].
  exact (points_have_symbol_and_label (RT := exact_runtime)
           tables_3 false false s t E).
Defined.

(** The decoded table of two samples has values at 0 and 1 only. *)
Lemma decoded_table_is_indexable_witness :
  ∃ t, parse_gps_block (block_of payload_8 camera_divisors) = Ok t ∧
       (is_Some (table_column t 7 !! 1%nat) ↔ (1 < npoints t)%nat) ∧
       (is_Some (table_column t 7 !! 2%nat) ↔ (2 < npoints t)%nat).
Proof.
  destruct (parse_gps_block (block_of payload_8 camera_divisors))
    as [t|e] eqn:E; [|discriminate E].
  exists t. split; [reflexivity|].
  split; exact (decoded_table_is_indexable _ t E _ _).
Defined.

(** The payload without rows. *)
Lemma payload_without_rows_witness :
  ∃ t, parse_gps_block (block_of payload_no_rows camera_divisors) = Ok t ∧
       npoints t = 0%nat ∧
       (∃ e, make_pgx_segment (RT := exact_runtime)
               (tables_3 ++ t :: []) false true = Raise e) ∧
       make_pgx_segment (RT := exact_runtime) (t :: []) false true
       = Raise IndexError.
Proof.
  eapply (payload_without_rows (RT := exact_runtime)
            (block_of payload_no_rows camera_divisors)); try reflexivity.
  constructor.
Defined.

(** Zero as the divisor of the fix code. *)
Lemma zero_fix_divisor_witness :
  ∃ t, parse_gps_block (block_of payload_8 [1; 1; 1; 1; 1; 1; 1; 1; 0]) = Ok t ∧
       Forall (λ c, ¬ known_fix c) (fix_ t) ∧
       (t ∈ [t] →
        ∃ e, make_pgx_segment (RT := exact_runtime) [t] false true = Raise e).
Proof.
  destruct (parse_gps_block (block_of payload_8 [1; 1; 1; 1; 1; 1; 1; 1; 0]))
    as [t|e] eqn:E; [|discriminate E].
  destruct (zero_fix_divisor (RT := exact_runtime)
              (block_of payload_8 [1; 1; 1; 1; 1; 1; 1; 1; 0])
              (KLV "GPS9" (VArray2 payload_8))
              (KLV "SCAL" (VArray1 [1; 1; 1; 1; 1; 1; 1; 1; 0]))
              (KLV "STNM"
                 (VStr "GPS (Lat., Long., Alt., 2D, 3D, days, secs, DOP, fix)"))
              (KLV "STMP" (VInt 1500))
              (KLV "UNIT" (VStr "degmmm/sm/s"))
              payload_8 [1; 1; 1; 1; 1; 1; 1; 1; 0]
              eq_refl eq_refl eq_refl eq_refl eq_refl eq_refl eq_refl
              ltac:(repeat constructor) eq_refl eq_refl
              [t] false true eq_refl ltac:(discriminate))
    as (t' & Ht' & Hfix & Hrun).
  rewrite E in Ht'. injection Ht' as <-.
  exists t. split; [reflexivity|]. split; [exact Hfix | exact Hrun].
Defined.

(** * The models at work *)

(** The division of line 81 on some entries: a quotient that float64
    rounds, an integer of 54 bits, a tie, a negative quotient, and the
    zeros. *)
Lemma true_divide_examples :
  true_divide 10 10000000
  = Fin (4722366482869645 # 4722366482869645213696) ∧
  true_divide 9007199254740993 1 = Fin 9007199254740992 ∧
  true_divide 9007199254740995 1 = Fin 9007199254740996 ∧
  true_divide (-7) 3 = Fin (-5254199565265579 # 2251799813685248) ∧
  true_divide 3 2 = Fin (3 # 2) ∧
  true_divide 0 5 = Fin 0 ∧
  true_divide 0 (-5) = NegZero ∧
  true_divide 5 0 = PInf ∧ true_divide (-5) 0 = NInf ∧
  true_divide 0 0 = NaN.
Proof. repeat split; vm_compute; reflexivity. Qed.

(** The extractor on records tagged STRM that are not containers: an empty
    array has no element and the generator goes on; the first element of
    an array has no [key], and the generator stops after the blocks it
    has yielded; a scalar cannot be iterated. *)
Lemma extract_gps_blocks_examples :
  extract_gps_blocks stream_empty_array
  = ([block_of payload_8 (ones 9)], None) ∧
  extract_gps_blocks stream_array
  = ([block_of payload_8 (ones 9)], Some AttributeError) ∧
  extract_gps_blocks [KLV "STRM" (VInt 1)] = ([], Some TypeError) ∧
  extract_gps_blocks [KLV "STRM" (VStr ""); KLV "STRM" (VStr "GPS9")]
  = ([], Some AttributeError).
Proof. repeat split; reflexivity. Qed.
